(** * Narsil/nlp: the IWSLT 2017 line-pair extractor and the dummy-data command

    A shallow embedding of
    - [datasets/iwslt2017.py]: [_generate_examples], and
    - [src/nlp/commands/dummy_data.py]: [slurp], [DummyDataCommand.__init__],
      [get_files], [get_real_files], [auto_zip] and [get_expected_files],
    together with the few Python primitives they rely on ([str.strip],
    [str.split], [str.startswith], list indexing, [os.path.basename],
    [os.path.join], the [open] builtin looked up in [builtins]). *)

From Stdlib Require Import ZArith Ascii String Lia.
From stdpp Require Import base option list strings gmap.

(** ** Python primitives *)

Module Py.

(** The exceptions that the modelled code can raise or meet. *)
Inductive exn :=
| IndexError
| UnboundLocalError (var : string)
| AttributeError (attr : string)
| RecursionError
| FileNotFoundError (filename : string)
| AssertionError (msg : string)
| Exception (msg : string).

(** A computation either returns a value or raises. *)
Inductive result (A : Type) :=
| Ok (a : A)
| Err (e : exn).
Arguments Ok {A} a.
Arguments Err {A} e.

Definition rbind {A B} (r : result A) (k : A → result B) : result B :=
  match r with
  | Ok a => k a
  | Err e => Err e
  end.

(** [l[i]] on a Python list: negative indices count from the end, and an
    index out of range raises [IndexError]. *)
Definition getitem {A} (l : list A) (i : Z) : result A :=
  let n := Z.of_nat (length l) in
  let j := if (i <? 0)%Z then (n + i)%Z else i in
  if ((j <? 0) || (n <=? j))%Z then Err IndexError
  else match l !! Z.to_nat j with
       | Some a => Ok a
       | None => Err IndexError
       end.

(** Characters are code points below 256; [str.isspace] on that range. *)
Definition isspace (c : ascii) : bool :=
  match c with
  | "009" | "010" | "011" | "012" | "013"
  | "028" | "029" | "030" | "031" | " "
  | "133" | "160" => true
  | _ => false
  end%char.

Fixpoint lstrip (s : string) : string :=
  match s with
  | "" => ""
  | String c r => if isspace c then lstrip r else s
  end.

Fixpoint rstrip (s : string) : string :=
  match s with
  | "" => ""
  | String c r =>
      match rstrip r with
      | "" => if isspace c then "" else String c ""
      | r' => String c r'
      end
  end.

(** [s.strip()] *)
Definition strip (s : string) : string := rstrip (lstrip s).

(** [s.startswith(p)] *)
Fixpoint startswith (s p : string) {struct p} : bool :=
  match p, s with
  | "", _ => true
  | String a p', String b s' => if decide (a = b) then startswith s' p' else false
  | String _ _, "" => false
  end.

(** [s.split(sep)] for a separator of one character, which is the only use
    the code makes of it: the pieces between consecutive separators, empty
    pieces kept, never an empty list. *)
Fixpoint split (s : string) (sep : ascii) : list string :=
  match s with
  | "" => [""]
  | String c r =>
      if decide (c = sep) then "" :: split r sep
      else match split r sep with
           | [] => [String c ""]
           | piece :: pieces => String c piece :: pieces
           end
  end.

(** [c in s] *)
Fixpoint contains (s : string) (c : ascii) : bool :=
  match s with
  | "" => false
  | String a r => if decide (a = c) then true else contains r c
  end.

(** The text of [s] before the first [sep]: all of [s] when there is none. *)
Fixpoint before (s : string) (sep : ascii) : string :=
  match s with
  | "" => ""
  | String c r => if decide (c = sep) then "" else String c (before r sep)
  end.

(** The text of [s] after the first [sep], when there is one. *)
Fixpoint after_first (s : string) (sep : ascii) : option string :=
  match s with
  | "" => None
  | String c r => if decide (c = sep) then Some r else after_first r sep
  end.

(** The text of [s] before the first character that is one of [seps]. *)
Fixpoint before_any (s : string) (seps : list ascii) : string :=
  match s with
  | "" => ""
  | String c r => if decide (c ∈ seps) then "" else String c (before_any r seps)
  end.

(** [sep.join(l)] *)
Fixpoint join (sep : string) (l : list string) : string :=
  match l with
  | [] => ""
  | [x] => x
  | x :: l' => x +:+ sep +:+ join sep l'
  end.

(** [s.endswith(c)] for one character. *)
Fixpoint endswith (s : string) (c : ascii) : bool :=
  match s with
  | "" => false
  | String a "" => bool_decide (a = c)
  | String _ r => endswith r c
  end.

(** [os.path.basename] (posixpath): what follows the last slash. *)
Fixpoint basename (p : string) : string :=
  match p with
  | "" => ""
  | String c r =>
      if contains r "/" then basename r
      else if decide (c = "/"%char) then r else p
  end.

(** [s] without its prefix [p], when it has it. *)
Fixpoint strip_prefix (p s : string) {struct p} : option string :=
  match p, s with
  | "", _ => Some s
  | String a p', String b s' => if decide (a = b) then strip_prefix p' s' else None
  | String _ _, "" => None
  end.

(** [os.path.dirname] (posixpath): what precedes the last slash, without
    its trailing slashes unless it is made of slashes only. *)
Fixpoint dirname_head (p : string) : string :=
  match p with
  | "" => ""
  | String c r => if contains p "/" then String c (dirname_head r) else ""
  end.

Fixpoint rstrip_slash (s : string) : string :=
  match s with
  | "" => ""
  | String c r =>
      match rstrip_slash r with
      | "" => if decide (c = "/"%char) then "" else String c ""
      | r' => String c r'
      end
  end.

Definition dirname (p : string) : string :=
  let head := dirname_head p in
  match rstrip_slash head with
  | "" => head
  | head' => head'
  end.

(** [os.path.join] (posixpath) of two components. *)
Definition path_join (a b : string) : string :=
  if startswith b "/" then b
  else if bool_decide (a = "") || endswith a "/" then a +:+ b
  else a +:+ "/" +:+ b.

End Py.

(** ** datasets/iwslt2017.py *)

Module Iwslt2017.
Import Py.

(** The record yielded for one line pair. *)
Record example := { source : string; target : string }.

(** What driving a generator to its end shows: the pairs it yielded, in
    order, and the exception that ended it, if one did. *)
Record trace := { yielded : list (Z * example); raised : option exn }.

(** The body of the [for] loop for one pair of rows: [Ok None] is the
    [continue] branch, [Ok (Some r)] reaches the [yield]. *)
Definition row_step (source_row target_row : string) : result (option example) :=
  let source_row := strip source_row in
  let target_row := strip target_row in
  if startswith source_row "<" then
    if startswith source_row "<seg" then
      rbind (getitem (split source_row ">") 1) (λ part1,
      rbind (getitem (split part1 "<") 0) (λ source_row,
      rbind (getitem (split target_row ">") 1) (λ part1,
      rbind (getitem (split part1 "<") 0) (λ target_row,
      let source_row := strip source_row in
      let target_row := strip target_row in
      Ok (Some {| source := source_row; target := target_row |})))))
    else Ok None
  else Ok (Some {| source := source_row; target := target_row |}).

Arguments row_step : simpl never.

(** The loop over [zip(sf, tf)], with the counter [id_] threaded through. *)
Fixpoint generate_loop (rows : list (string * string)) (id_ : Z) : trace :=
  match rows with
  | [] => {| yielded := []; raised := None |}
  | (source_row, target_row) :: rows' =>
      match row_step source_row target_row with
      | Err e => {| yielded := []; raised := Some e |}
      | Ok None => generate_loop rows' id_
      | Ok (Some r) =>
          let rest := generate_loop rows' (id_ + 1) in
          {| yielded := (id_, r) :: yielded rest; raised := raised rest |}
      end
  end.

(** [_generate_examples], from the line sequences [sf] and [tf] that the two
    [with open(...)] statements bind. [zip] stops at the shorter one. *)
Definition _generate_examples (sf tf : list string) : trace :=
  generate_loop (zip sf tf) 0.

(** The extraction in the words of the specification: the text strictly
    between the first [>] of the row and the [<] that follows it. *)
Definition text_between_first_gt_and_following_lt (row : string) : option string :=
  match after_first row ">" with
  | Some rest => if contains rest "<" then Some (before rest "<") else None
  | None => None
  end.

(** The segment lines of the specification's example. *)
Definition dquote : string := String "034" "".
Definition seg_hello : string :=
  "<seg id=" +:+ dquote +:+ "1" +:+ dquote +:+ "> Hello </seg>".
Definition seg_bonjour : string :=
  "<seg id=" +:+ dquote +:+ "1" +:+ dquote +:+ "> Bonjour </seg>".

End Iwslt2017.

(** ** src/nlp/commands/dummy_data.py *)

Module DummyData.
Import Py.

(** *** The interpreter state the command works on *)

(** The values [builtins.open] takes: the interpreter's own [open], or a
    [monkey_patch_open] closure of some [get_files] call, which holds that
    call's [files] list (by its address [files]) and its [mock] flag. *)
Inductive open_fn :=
| io_open
| monkey_patch_open (files : nat) (mock : bool).

Inductive mode := mode_r | mode_w.

(** An open file: a file of the file system, or a [tempfile.TemporaryFile]. *)
Inductive handle :=
| file_handle (path : string)
| temp_handle.

(** A file is a text file, seen as its lines, or a zip archive, seen as its
    members (archive name and lines). *)
Inductive node :=
| text_file (lines : list string)
| zip_file (members : list (string * list string)).

Record builder_config := { config_name : string; config_version : string }.

(** The pieces of guidance that [get_expected_files] puts together. *)
Inductive guidance :=
| g_header
| g_go_into_folder (config_name : option string) (dataset_name folder : string)
| g_glob_expected (dummy_file_name : string)
| g_create_single_file (file folder split_names : string)
| g_create_following_files (files_string folder : string)
| g_for_each_split (split_names : string)
| g_multiple_open (files_string : string)
| g_zip_single (dummy_file_name : string)
| g_rm_single (dummy_file_name : string)
| g_unzip_single (dummy_file_name : string)
| g_zip_folder (dummy_file_name : string)
| g_rm_folder (dummy_file_name : string)
| g_unzip_folder (dummy_file_name : string)
| g_make_sure_zip (dummy_file_name folder : string)
| g_footer.

(** What [print] writes. *)
Inductive message :=
| msg_opens_files_in_split_generators
    (dataset_name : string) (config : option builder_config) (filename : string)
| msg_dummy_data_instructions (text : list guidance).

Record world := World {
  fs : gmap string node;
  dirs : gset string;
  builtins_open : open_fn;
  builtins__open : option open_fn;
  lists : list (list string);
  stdout : list message
}.

Definition set_fs (f : gmap string node → gmap string node) (w : world) : world :=
  World (f (fs w)) (dirs w) (builtins_open w) (builtins__open w) (lists w) (stdout w).
Definition set_dirs (f : gset string → gset string) (w : world) : world :=
  World (fs w) (f (dirs w)) (builtins_open w) (builtins__open w) (lists w) (stdout w).
Definition set_builtins_open (o : open_fn) (w : world) : world :=
  World (fs w) (dirs w) o (builtins__open w) (lists w) (stdout w).
Definition set_builtins__open (o : option open_fn) (w : world) : world :=
  World (fs w) (dirs w) (builtins_open w) o (lists w) (stdout w).
Definition set_lists (f : list (list string) → list (list string)) (w : world) : world :=
  World (fs w) (dirs w) (builtins_open w) (builtins__open w) (f (lists w)) (stdout w).
Definition print (m : message) (w : world) : world :=
  World (fs w) (dirs w) (builtins_open w) (builtins__open w) (lists w) (stdout w ++ [m]).

(** Code that works on the interpreter state and may raise. *)
Definition M (A : Type) : Type := world → world * result A.

Definition ret {A} (a : A) : M A := λ w, (w, Ok a).
Definition raise {A} (e : exn) : M A := λ w, (w, Err e).
Definition bind {A B} (m : M A) (k : A → M B) : M B :=
  λ w, match m w with
       | (w', Ok a) => k a w'
       | (w', Err e) => (w', Err e)
       end.
Definition modify (f : world → world) : M unit := λ w, (f w, Ok tt).
Definition lift {A} (r : result A) : M A := λ w, (w, r).

Notation "'let*' x ':=' m 'in' k" := (bind m (λ x, k))
  (at level 10, x pattern, m at level 100, k at level 200).

(** The interpreter's own [open]: reading needs a text file to be there,
    writing creates or truncates one. Directories are recorded by [makedirs]
    and not checked here, and an archive is never opened as text. *)
Definition io_open_impl (path : string) (m : mode) : M handle := λ w,
  match m with
  | mode_r =>
      match fs w !! path with
      | Some (text_file _) => (w, Ok (file_handle path))
      | _ => (w, Err (FileNotFoundError path))
      end
  | mode_w => (set_fs (insert path (text_file [])) w, Ok (file_handle path))
  end.

(** Calling an [open_fn] with a path and a mode. [monkey_patch_open]
    appends the path to its [files] list, then hands out a temporary file
    ([mock]: [tempfile.TemporaryFile] gets the mode alone) or calls whatever
    [builtins._open] is at that moment. [depth] is what is left of the
    interpreter's recursion limit. *)
Fixpoint call_open (depth : nat) (fn : open_fn) (path : string) (m : mode) : M handle :=
  λ w,
  match depth with
  | O => (w, Err RecursionError)
  | S depth' =>
      match fn with
      | io_open => io_open_impl path m w
      | monkey_patch_open files mock =>
          let w := set_lists (alter (λ l, l ++ [path]) files) w in
          if mock then (w, Ok temp_handle)
          else match builtins__open w with
               | Some fn' => call_open depth' fn' path m w
               | None => (w, Err (AttributeError "_open"))
               end
      end
  end.

Definition recursion_limit : nat := 1000.

(** [open(path, mode)]: the name [open] is looked up in [builtins]. *)
Definition py_open (path : string) (m : mode) : M handle := λ w,
  call_open recursion_limit (builtins_open w) path m w.

(** Iterating over an open file gives its lines. *)
Definition read_lines (h : handle) : M (list string) := λ w,
  match h with
  | temp_handle => (w, Ok [])
  | file_handle path =>
      match fs w !! path with
      | Some (text_file lines) => (w, Ok lines)
      | _ => (w, Ok [])
      end
  end.

(** [for line in lines: f.write(line)] *)
Definition write_lines (h : handle) (lines : list string) : M unit :=
  match h with
  | temp_handle => ret tt
  | file_handle path =>
      modify (set_fs (alter (λ n, match n with
                                  | text_file old => text_file (old ++ lines)
                                  | zip_file ms => zip_file ms
                                  end) path))
  end.

(** [os.makedirs(path, exist_ok=True)] *)
Definition makedirs (path : string) : M unit :=
  if bool_decide (path = "") then raise (FileNotFoundError "")
  else modify (set_dirs (λ d, {[ path ]} ∪ d)).

(** *** [slurp] *)

(** The first loop: [total_lines += 1] for each line. *)
Fixpoint count_lines (f : list string) (total_lines : Z) : Z :=
  match f with
  | [] => total_lines
  | _ :: f' => count_lines f' (total_lines + 1)
  end.

(** The condition of the second loop:
    [i <= n_first or i >= total_lines - n_last]. *)
Definition keeps (i total_lines n_first n_last : Z) : bool :=
  ((i <=? n_first) || (i >=? total_lines - n_last))%Z.

(** The second loop, over [enumerate(f)] from index [i] on, appending to
    [lines]. *)
Fixpoint keep_lines (f : list string) (i total_lines n_first n_last : Z)
    (lines : list string) : list string :=
  match f with
  | [] => lines
  | line :: f' =>
      keep_lines f' (i + 1) total_lines n_first n_last
        (if keeps i total_lines n_first n_last then lines ++ [line] else lines)
  end.

(** [enumerate(f)] *)
Definition enumerate (f : list string) : list (Z * string) :=
  imap (λ i line, (Z.of_nat i, line)) f.

Definition slurp (filename : string) (n_first n_last : Z) : M (list string) :=
  let* f := py_open filename mode_r in
  let* content := read_lines f in
  let total_lines := count_lines content 0 in
  let* f := py_open filename mode_r in
  let* content := read_lines f in
  ret (keep_lines content 0 total_lines n_first n_last []).

(** *** [DummyDataCommand] *)

Record DummyDataCommand := {
  _path_to_dataset : string;
  _requires_manual : bool;
  _dataset_name : string;
  _auto_zip : bool;
  _n_first : Z;
  _n_last : Z
}.

(** [assert cond, msg] *)
Definition assert (cond : bool) (msg : string) : result unit :=
  if cond then Ok tt else Err (AssertionError msg).

Definition __init__ (path_to_dataset : string) (requires_manual auto_zip : bool)
    (n_first n_last : Z) : result DummyDataCommand :=
  rbind (getitem (split path_to_dataset "/") (-2)) (λ dataset_name,
  rbind (if auto_zip
         then assert (negb (n_first =? 0)%Z || negb (n_last =? 0)%Z)
                "When using `auto-zip` you need to set at least `--n-first` or `--n-last`"
         else assert ((n_first =? 0)%Z && (n_last =? 0)%Z)
                "When using `--n-first` or `--n-last` you need to set `--auto-zip`") (λ _,
  Ok {| _path_to_dataset := path_to_dataset;
        _requires_manual := requires_manual;
        _dataset_name := dataset_name;
        _auto_zip := auto_zip;
        _n_first := n_first;
        _n_last := n_last |})).

(** *** The dataset builder and the download managers

    They are not code of this command. A builder method is seen through
    what it does that the command can observe: the files it opens (through
    the name [open]), what it yields, and how it ends. An exception of
    [open] goes through the method, which ends there.

    [s_open path m k] is a call [open(path)] or [open(path, mode)], with no
    further argument. A script is the course of one method: the steps [k]
    that follow an [open] are fixed, they do not depend on what the opened
    file holds. *)
Inductive script (A : Type) :=
| s_return (a : A)
| s_raise (e : exn)
| s_open (path : string) (m : mode) (k : script A)
| s_yield (k : script A).
Arguments s_return {A} a.
Arguments s_raise {A} e.
Arguments s_open {A} path m k.
Arguments s_yield {A} k.

Fixpoint run_script {A} (s : script A) : M A :=
  match s with
  | s_return a => ret a
  | s_raise e => raise e
  | s_open path m k => let* _ := py_open path m in run_script k
  | s_yield k => run_script k
  end.

Record split_generator := { name : string; gen_kwargs : list (string * string) }.

Inductive dl_manager :=
| DownloadManager (dataset_name : string)
| MockDownloadManager (dataset_name : string) (config : option builder_config)
    (version : string).

Record builder := {
  _split_generators : dl_manager → script (list split_generator);
  _generate_examples : list (string * string) → script unit
}.

(** *** [get_files] *)

(** [for split in generator_splits: ... for key, record in generator: pass] *)
Fixpoint drive_splits (dataset_builder : builder) (generator_splits : list split_generator)
    : M unit :=
  match generator_splits with
  | [] => ret tt
  | split :: rest =>
      let* _ := run_script (_generate_examples dataset_builder (gen_kwargs split)) in
      drive_splits dataset_builder rest
  end.

(** Reading the attribute [builtins._open]. *)
Definition get_builtins__open : M open_fn := λ w,
  match builtins__open w with
  | Some fn => (w, Ok fn)
  | None => (w, Err (AttributeError "_open"))
  end.

Definition get_files (dataset_builder : builder) (dl_manager : dl_manager) (mock : bool)
    : M (list string) :=
  (* files = [] *)
  let* files := (λ w, (set_lists (λ l, l ++ [[]]) w, Ok (length (lists w)))) in
  (* builtins._open = builtins.open *)
  let* _ := modify (λ w, set_builtins__open (Some (builtins_open w)) w) in
  (* builtins.open = monkey_patch_open *)
  let* _ := modify (set_builtins_open (monkey_patch_open files mock)) in
  let* generator_splits := run_script (_split_generators dataset_builder dl_manager) in
  let* _ := drive_splits dataset_builder generator_splits in
  (* builtins.open = builtins._open *)
  let* fn := get_builtins__open in
  let* _ := modify (set_builtins_open fn) in
  (* return files *)
  λ w, (w, Ok (default [] (lists w !! files))).

Definition get_real_files (self : DummyDataCommand) (dataset_builder : builder)
    : M (list string) :=
  get_files dataset_builder (DownloadManager (_dataset_name self)) false.

(** *** [auto_zip] *)

Definition archive_name : string := "dummy_data.zip".

(** The [try] block at the head of the loop: the first real file with the
    base name of [file_to_create]; the [IndexError] of [[...][0]] becomes
    the [Exception] that names the file. *)
Definition find_real_file (real_files : list string) (file_to_create : string)
    : result string :=
  match getitem
          (filter (λ filename, basename filename = basename file_to_create) real_files) 0
  with
  | Ok real_file => Ok real_file
  | Err IndexError =>
      Err (Exception ("We could not find the file " +:+ file_to_create
                      +:+ " in the real downladed files"))
  | Err e => Err e
  end.

(** The first loop: trim each real file into the dummy-data folder. *)
Fixpoint trim_files (self : DummyDataCommand) (real_files : list string)
    (dummy_data_folder : string) (files_to_create : list string) : M unit :=
  match files_to_create with
  | [] => ret tt
  | file_to_create :: rest =>
      let* real_file := lift (find_real_file real_files file_to_create) in
      let* lines := slurp real_file (_n_first self) (_n_last self) in
      let full_filename_to_create := path_join dummy_data_folder file_to_create in
      let* _ := makedirs (dirname full_filename_to_create) in
      let* f := py_open full_filename_to_create mode_w in
      let* _ := write_lines f lines in
      trim_files self real_files dummy_data_folder rest
  end.

(** [z.write(filename, arcname=file_to_create)] for each file: the file is
    read through [open] and added to the archive at [dummy_filename]. *)
Fixpoint zip_files (dummy_filename dummy_data_folder : string)
    (files_to_create : list string) : M unit :=
  match files_to_create with
  | [] => ret tt
  | file_to_create :: rest =>
      let filename := path_join dummy_data_folder file_to_create in
      let* f := py_open filename mode_r in
      let* lines := read_lines f in
      let* _ := modify (set_fs (alter (λ n, match n with
                                            | zip_file ms => zip_file (ms ++ [(file_to_create, lines)])
                                            | text_file l => text_file l
                                            end) dummy_filename)) in
      zip_files dummy_filename dummy_data_folder rest
  end.

(** The entry of [os.listdir(folder)] under which [path] lies, if it lies
    in [folder]. *)
Definition entry_of (folder path : string) : option string :=
  match strip_prefix (path_join folder "") path with
  | Some (String c r) => Some (before (String c r) "/")
  | _ => None
  end.

(** The last loop: whatever lies in the folder under another entry than the
    archive is removed. *)
Definition spared (folder path : string) : Prop :=
  match entry_of folder path with
  | Some entry => entry = archive_name
  | None => True
  end.

Global Instance spared_dec folder path : Decision (spared folder path).
Proof. unfold spared. destruct (entry_of folder path); apply _. Defined.

Definition remove_other_files (dummy_data_folder : string) : M unit :=
  let* _ := modify (set_fs (filter (λ kv, spared dummy_data_folder kv.1))) in
  modify (set_dirs (filter (spared dummy_data_folder))).

Definition auto_zip (self : DummyDataCommand) (config : option builder_config)
    (version : string) (dataset_builder : builder) (dummy_data_folder : string)
    (files_to_create : list string) : M unit :=
  let* real_files := get_real_files self dataset_builder in
  let* _ := trim_files self real_files dummy_data_folder files_to_create in
  let dummy_filename := path_join dummy_data_folder archive_name in
  let* _ := modify (set_fs (insert dummy_filename (zip_file []))) in
  let* _ := zip_files dummy_filename dummy_data_folder files_to_create in
  remove_other_files dummy_data_folder.

(** *** [get_expected_files] *)

Section MockManager.

(** The two attributes of [MockDownloadManager] that the command reads;
    the class is not part of these sources. *)
Variable dummy_data_folder_of : option builder_config → string → string.
Variable dummy_file_name : string.

(** The [try] statement: the result of [_split_generators] is bound to
    the local [generator_splits]; on [FileNotFoundError] the handler
    prints and binds nothing. [None] is the unbound local. *)
Definition probe_split_generators (self : DummyDataCommand)
    (config : option builder_config) (dataset_builder : builder)
    (mock_dl_manager : dl_manager) : M (option (list split_generator)) := λ w,
  match run_script (_split_generators dataset_builder mock_dl_manager) w with
  | (w', Ok generator_splits) => (w', Ok (Some generator_splits))
  | (w', Err (FileNotFoundError filename)) =>
      (print (msg_opens_files_in_split_generators (_dataset_name self) config filename) w',
       Ok None)
  | (w', Err e) => (w', Err e)
  end.

(** Reading a local variable. *)
Definition local {A} (var : string) (v : option A) : M A :=
  match v with
  | Some a => ret a
  | None => raise (UnboundLocalError var)
  end.

(** The loop over the splits: it collects the names and rebinds the
    guidance text at each turn. *)
Fixpoint collect_splits (self : DummyDataCommand) (config : option builder_config)
    (dummy_data_folder : string) (generator_splits : list split_generator)
    (split_names : list string) (dummy_data_guidance_print : option (list guidance))
    : list string * option (list guidance) :=
  match generator_splits with
  | [] => (split_names, dummy_data_guidance_print)
  | split :: rest =>
      collect_splits self config dummy_data_folder rest
        (split_names ++ [name split])
        (Some [g_header;
               g_go_into_folder (config_name <$> config) (_dataset_name self)
                 dummy_data_folder;
               g_glob_expected dummy_file_name])
  end.

(** The text added under [if print_dummy_instructions:]. *)
Definition instructions (dummy_data_folder split_names : string)
    (files_to_create : list string) : list guidance :=
  let single :=
    bool_decide (length files_to_create = 1)
    && bool_decide (head files_to_create = Some dummy_file_name) in
  (if bool_decide (0 < length files_to_create) then
     (if single then
        [g_create_single_file (default "" (head files_to_create))
           dummy_data_folder split_names]
      else
        [g_create_following_files (join ", " files_to_create) dummy_data_folder;
         g_for_each_split split_names])
     ++ [g_multiple_open
           (if single then dummy_file_name else join ", " files_to_create)]
   else [])
  ++ (if single then
        [g_zip_single dummy_file_name; g_rm_single dummy_file_name;
         g_unzip_single dummy_file_name]
      else
        [g_zip_folder dummy_file_name; g_rm_folder dummy_file_name;
         g_unzip_folder dummy_file_name])
  ++ [g_make_sure_zip dummy_file_name dummy_data_folder; g_footer].

Definition get_expected_files (self : DummyDataCommand)
    (config : option builder_config) (version : string) (dataset_builder : builder)
    (print_dummy_instructions : bool) : M (string * list string) :=
  let mock_dl_manager := MockDownloadManager (_dataset_name self) config version in
  let dummy_data_folder :=
    path_join (_path_to_dataset self) (dummy_data_folder_of config version) in
  let* _ := makedirs dummy_data_folder in
  let* generator_splits :=
    probe_split_generators self config dataset_builder mock_dl_manager in
  let* generator_splits := local "generator_splits" generator_splits in
  let '(split_names, dummy_data_guidance_print) :=
    collect_splits self config dummy_data_folder generator_splits [] None in
  let* files_to_create := get_files dataset_builder mock_dl_manager true in
  let split_names := join ", " split_names in
  let* _ :=
    if print_dummy_instructions then
      let* text := local "dummy_data_guidance_print" dummy_data_guidance_print in
      modify (print (msg_dummy_data_instructions
                       (text ++ instructions dummy_data_folder split_names
                                  files_to_create)))
    else ret tt in
  ret (dummy_data_folder, files_to_create).

(** One turn of the loop of [run], for one configuration. *)
Definition run_config (self : DummyDataCommand) (config : option builder_config)
    (version : string) (dataset_builder : builder) : M unit :=
  let* expected :=
    get_expected_files self config version dataset_builder (negb (_auto_zip self)) in
  let '(dummy_data_folder, files_to_create) := expected in
  if _auto_zip self
  then auto_zip self config version dataset_builder dummy_data_folder files_to_create
  else ret tt.

End MockManager.

(** *** Sample inputs *)

(** A fresh interpreter, with the given files. *)
Definition fresh_world (files : gmap string node) : world :=
  World files ∅ io_open None [] [].

(** A file of ten lines. *)
Definition ten_lines : list string :=
  (λ s, s +:+ String "010" "")
    <$> ["zero"; "one"; "two"; "three"; "four"; "five"; "six"; "seven"; "eight"; "nine"].

Definition world_ten : world :=
  fresh_world {[ "real/train.txt" := text_file ten_lines ]}.

(** A builder with one split, whose example generator opens its file and
    then fails on a malformed line. *)
Definition raising_builder : builder :=
  {| _split_generators := λ _,
       s_return [{| name := "train"; gen_kwargs := [("filepath", "train.txt")] |}];
     _generate_examples := λ _, s_open "train.txt" mode_r (s_raise IndexError) |}.

(** A builder that already opens a file while it generates its splits. *)
Definition early_opening_builder : builder :=
  {| _split_generators := λ _,
       s_open "dummy_data/labels.txt" mode_r
         (s_return [{| name := "train"; gen_kwargs := [] |}]);
     _generate_examples := λ _, s_yield (s_return tt) |}.

(** A builder with one split, read from one file. *)
Definition one_file_builder : builder :=
  {| _split_generators := λ _,
       s_return [{| name := "train"; gen_kwargs := [("filepath", "real/train.txt")] |}];
     _generate_examples := λ _, s_open "real/train.txt" mode_r (s_yield (s_return tt)) |}.

Definition sample_command (auto_zip : bool) (n_first n_last : Z) : DummyDataCommand :=
  {| _path_to_dataset := "datasets/sample/";
     _requires_manual := false;
     _dataset_name := "sample";
     _auto_zip := auto_zip;
     _n_first := n_first;
     _n_last := n_last |}.

End DummyData.

(** ** datasets/iwslt2017.py: the configurations and the splits *)

Module Iwslt2017Builder.
Import Py.

Definition LANGUAGES : list string := ["de"; "en"; "it"; "nl"; "ro"].

(** [[f"{a}-{b}" for a in LANGUAGES for b in LANGUAGES if a != b]] *)
Definition pairs_of (languages : list string) : list string :=
  a ← languages; b ← languages; if decide (a ≠ b) then [a +:+ "-" +:+ b] else [].

Definition PAIRS : list string := pairs_of LANGUAGES.

Record IWSLT2017Config := {
  config_name : string;
  config_description : string;
  config_pair : string
}.

Definition BUILDER_CONFIGS : list IWSLT2017Config :=
  (λ pair, {| config_name := "iwslt2017_" +:+ pair;
              config_description := "A small dataset";
              config_pair := pair |}) <$> PAIRS.

(** The two ways [source, target = ...] raises [ValueError]. *)
Inductive unpack_error :=
| not_enough_values_to_unpack (got : nat)
| too_many_values_to_unpack.

(** [source, target = l] *)
Definition unpack2 (l : list string) : unpack_error + string * string :=
  match l with
  | [source; target] => inr (source, target)
  | _ :: _ :: _ :: _ => inl too_many_values_to_unpack
  | _ => inl (not_enough_values_to_unpack (length l))
  end.

(** What [nlp.SplitGenerator] is given. *)
Record SplitGenerator := {
  split_generator_name : string;
  source_file : string;
  target_file : string;
  split : string
}.

Section Splits.

(** Not part of these sources: the three split names of [nlp.Split], and
    the folder that [dl_manager.download_and_extract(_URL)] returns. *)
Variables TRAIN TEST VALIDATION : string.
Variable dl_dir : string.

Definition _split_generators (pair : string) : unpack_error + list SplitGenerator :=
  let data_dir := path_join dl_dir "DeEnItNlRo-DeEnItNlRo" in
  match unpack2 (Py.split pair "-") with
  | inl e => inl e
  | inr (source, target) =>
      inr [ {| split_generator_name := TRAIN;
               source_file := path_join data_dir ("train.tags." +:+ pair +:+ "." +:+ source);
               target_file := path_join data_dir ("train.tags." +:+ pair +:+ "." +:+ target);
               split := "train" |};
            {| split_generator_name := TEST;
               source_file :=
                 path_join data_dir
                   ("IWSLT17.TED.tst2010." +:+ pair +:+ "." +:+ source +:+ ".xml");
               target_file :=
                 path_join data_dir
                   ("IWSLT17.TED.tst2010." +:+ pair +:+ "." +:+ target +:+ ".xml");
               split := "test" |};
            {| split_generator_name := VALIDATION;
               source_file :=
                 path_join data_dir
                   ("IWSLT17.TED.dev2010." +:+ pair +:+ "." +:+ source +:+ ".xml");
               target_file :=
                 path_join data_dir
                   ("IWSLT17.TED.dev2010." +:+ pair +:+ "." +:+ target +:+ ".xml");
               split := "dev" |} ]
  end.

End Splits.

(** The files that the splits name, in the order in which they are opened. *)
Definition files_of (splits : list SplitGenerator) : list string :=
  splits ≫= λ s, [source_file s; target_file s].

(** A row that the loop of [_generate_examples] skips: its stripped source
    line starts with [<] and not with [<seg]. *)
Definition structural (source_row : string) : bool :=
  startswith (strip source_row) "<" && negb (startswith (strip source_row) "<seg").

(** A string without a leading blank. *)
Definition no_leading_space (s : string) : Prop :=
  match s with
  | "" => True
  | String c _ => isspace c = false
  end.

End Iwslt2017Builder.

(** ** src/nlp/commands/dummy_data.py: [run], and what a builder asks for *)

Module DummyDataRuns.
Import Py DummyData.

(** The files that a builder method asks to open, in order, up to its end,
    when each [open] succeeds. *)
Fixpoint script_opens {A} (s : script A) : list (string * mode) :=
  match s with
  | s_return _ => []
  | s_raise _ => []
  | s_open path m k => (path, m) :: script_opens k
  | s_yield k => script_opens k
  end.

(** How a builder method ends when each [open] succeeds. *)
Fixpoint script_end {A} (s : script A) : result A :=
  match s with
  | s_return a => Ok a
  | s_raise e => Err e
  | s_open _ _ k => script_end k
  | s_yield k => script_end k
  end.

(** The same for the example generators of the splits, driven one after the
    other until one raises. *)
Fixpoint drive_opens (b : builder) (splits : list split_generator) : list (string * mode) :=
  match splits with
  | [] => []
  | split :: rest =>
      script_opens (_generate_examples b (gen_kwargs split))
      ++ match script_end (_generate_examples b (gen_kwargs split)) with
         | Ok _ => drive_opens b rest
         | Err _ => []
         end
  end.

Fixpoint drive_end (b : builder) (splits : list split_generator) : result unit :=
  match splits with
  | [] => Ok tt
  | split :: rest =>
      rbind (script_end (_generate_examples b (gen_kwargs split)))
        (λ _, drive_end b rest)
  end.

(** And for all that [get_files] runs: the split generation, then the
    example generation of each split. *)
Definition builder_opens (b : builder) (dl : dl_manager) : list (string * mode) :=
  script_opens (_split_generators b dl)
  ++ match script_end (_split_generators b dl) with
     | Ok splits => drive_opens b splits
     | Err _ => []
     end.

Definition builder_end (b : builder) (dl : dl_manager) : result unit :=
  rbind (script_end (_split_generators b dl)) (drive_end b).

(** A path with a text file: the paths for which [io_open_impl] returns a
    file, for reading. *)
Definition readable (files : gmap string node) (path : string) : bool :=
  match files !! path with
  | Some (text_file _) => true
  | _ => false
  end.

(** The first of the paths for which [io_open_impl] raises, for reading,
    and the paths up to it, it included. *)
Fixpoint first_unreadable (files : gmap string node) (paths : list string)
    : option string :=
  match paths with
  | [] => None
  | path :: rest => if readable files path then first_unreadable files rest else Some path
  end.

Fixpoint opened_until (files : gmap string node) (paths : list string) : list string :=
  match paths with
  | [] => []
  | path :: rest => path :: if readable files path then opened_until files rest else []
  end.

(** What a patched [open] lets through: in mock mode every path, otherwise
    the paths up to the first one for which [io_open_impl] raises. *)
Definition opened (mock : bool) (files : gmap string node) (paths : list string)
    : list string :=
  if mock then paths else opened_until files paths.

Definition blocked (mock : bool) (files : gmap string node) (paths : list string)
    : option string :=
  if mock then None else first_unreadable files paths.

(** What [get_files] ends with: the error of the first [open] that fails,
    or the builder's own error, or the paths that the builder asked for. *)
Definition recorded (mock : bool) (files : gmap string node) (b : builder)
    (dl : dl_manager) : result (list string) :=
  match blocked mock files (builder_opens b dl).*1 with
  | Some p => Err (FileNotFoundError p)
  | None => rbind (builder_end b dl) (λ _, Ok (builder_opens b dl).*1)
  end.

(** The state after the [monkey_patch_open] that holds the list [k] has
    appended [paths] to it. *)
Definition record_opens (k : nat) (paths : list string) (w : world) : world :=
  set_lists (alter (λ l, l ++ paths) k) w.

(** The class that [import_main_class] returns: its configurations, its
    version, and its constructor [builder_cls(name=name, hash=hash)]. *)
Record builder_cls := {
  BUILDER_CONFIGS : list builder_config;
  VERSION : string;
  new_builder : option string → string → builder
}.

Section Run.

Variable dummy_data_folder_of : option builder_config → string → string.
Variable dummy_file_name : string.

(** Not part of these sources: [nlp.load.prepare_module] and
    [nlp.load.import_main_class]. *)
Variable prepare_module : string → M (string * string).
Variable import_main_class : string → M builder_cls.

(** The loop of [run] over the configurations. *)
Fixpoint run_configs (self : DummyDataCommand) (cls : builder_cls) (hash : string)
    (configs : list (option builder_config)) : M unit :=
  match configs with
  | [] => ret tt
  | config :: rest =>
      let name := config_name <$> config in
      let version :=
        match config with
        | None => VERSION cls
        | Some c => config_version c
        end in
      let dataset_builder := new_builder cls name hash in
      let* _ := run_config dummy_data_folder_of dummy_file_name self config version
                  dataset_builder in
      run_configs self cls hash rest
  end.

Definition run (self : DummyDataCommand) : M unit :=
  let* prepared := prepare_module (_path_to_dataset self) in
  let '(module_path, hash) := prepared in
  let* cls := import_main_class module_path in
  (* configs = builder_cls.BUILDER_CONFIGS or [None] *)
  let configs :=
    match BUILDER_CONFIGS cls with
    | [] => [None]
    | cs => Some <$> cs
    end in
  run_configs self cls hash configs.

End Run.

(** A builder without any split. *)
Definition no_split_builder : builder :=
  {| _split_generators := λ _, s_return [];
     _generate_examples := λ _, s_return tt |}.

(** A builder that opens the same file for each of its two splits. *)
Definition two_split_builder : builder :=
  {| _split_generators := λ _,
       s_return [{| name := "train"; gen_kwargs := [] |};
                 {| name := "test"; gen_kwargs := [] |}];
     _generate_examples := λ _,
       s_open "real/train.txt" mode_r (s_yield (s_open "real/labels.txt" mode_r
         (s_return tt))) |}.

End DummyDataRuns.

(** * Properties *)

(** ** Python primitives *)

Section PyExamples.
Import Py.

Example split_keeps_empty_pieces : split "a/b/" "/" = ["a"; "b"; ""].
Proof. reflexivity. Qed.

Example split_without_separator : split "iwslt2017" "/" = ["iwslt2017"].
Proof. reflexivity. Qed.

Example split_of_empty : split "" ">" = [""].
Proof. reflexivity. Qed.

Example split_segment :
  split "<seg id=1> a > b </seg>" ">" = ["<seg id=1"; " a "; " b </seg"; ""].
Proof. reflexivity. Qed.

Example strip_both_ends : strip ("  Hello  world " +:+ String "010" "") = "Hello  world".
Proof. reflexivity. Qed.

Example getitem_from_the_end :
  getitem ["datasets"; "iwslt2017"; ""] (-2) = Ok "iwslt2017"
  ∧ getitem ["iwslt2017"] (-2) = Err IndexError
  ∧ getitem ["a"; "b"] 2 = Err IndexError.
Proof. repeat apply conj; reflexivity. Qed.

Example basename_samples :
  basename "cache/extracted/train.en" = "train.en"
  ∧ basename "train.en" = "train.en"
  ∧ basename "folder/" = "".
Proof. repeat apply conj; reflexivity. Qed.

Example dirname_samples :
  dirname "dummy/1.0.0/sub/train.en" = "dummy/1.0.0/sub"
  ∧ dirname "train.en" = ""
  ∧ dirname "/train.en" = "/"
  ∧ dirname "a//b" = "a".
Proof. repeat apply conj; reflexivity. Qed.

Example path_join_samples :
  path_join "datasets/sample" "dummy" = "datasets/sample/dummy"
  ∧ path_join "datasets/sample/" "dummy" = "datasets/sample/dummy"
  ∧ path_join "datasets/sample" "/tmp/x" = "/tmp/x"
  ∧ path_join "datasets/sample" "" = "datasets/sample/".
Proof. repeat apply conj; reflexivity. Qed.

End PyExamples.

Section PyFacts.
Import Py.

Lemma getitem_nat {A} (l : list A) (i : nat) :
  getitem l (Z.of_nat i)
  = match l !! i with Some a => Ok a | None => Err IndexError end.
Proof.
  unfold getitem.
  destruct (Z.ltb_spec (Z.of_nat i) 0) as [?|_]; [lia|].
  rewrite Nat2Z.id.
  destruct (l !! i) eqn:E.
  - apply lookup_lt_Some in E.
    destruct (Z.ltb_spec (Z.of_nat i) 0), (Z.leb_spec (Z.of_nat (length l)) (Z.of_nat i));
      simpl; try lia; reflexivity.
  - destruct (_ || _); reflexivity.
Qed.

Lemma getitem_0 {A} (l : list A) :
  getitem l 0 = match l with x :: _ => Ok x | [] => Err IndexError end.
Proof. change 0%Z with (Z.of_nat 0). rewrite getitem_nat. by destruct l. Qed.

Lemma getitem_1 {A} (l : list A) :
  getitem l 1 = match l with _ :: x :: _ => Ok x | _ => Err IndexError end.
Proof. change 1%Z with (Z.of_nat 1). rewrite getitem_nat. by destruct l as [|? [|? ?]]. Qed.

Lemma getitem_errors {A} (l : list A) i e : getitem l i = Err e → e = IndexError.
Proof.
  unfold getitem. destruct (_ || _); [congruence|].
  destruct (l !! _); congruence.
Qed.

(** [split] gives the text before the first separator, then the pieces of
    what follows that separator. *)
Lemma split_unfold s sep :
  split s sep
  = before s sep :: match after_first s sep with
                    | Some r => split r sep
                    | None => []
                    end.
Proof.
  induction s as [|c r IH]; simpl; [done|].
  destruct (decide (c = sep)); [done|]. by rewrite IH.
Qed.

Lemma split_0 s sep : getitem (split s sep) 0 = Ok (before s sep).
Proof. by rewrite getitem_0, split_unfold. Qed.

Lemma split_1 s sep :
  getitem (split s sep) 1
  = match after_first s sep with
    | Some r => Ok (before r sep)
    | None => Err IndexError
    end.
Proof.
  rewrite getitem_1, split_unfold.
  destruct (after_first s sep) as [r|]; [|done]. by rewrite split_unfold.
Qed.

Lemma contains_after_first s c :
  contains s c = bool_decide (is_Some (after_first s c)).
Proof.
  induction s as [|a r IH]; simpl; [done|].
  by destruct (decide (a = c)).
Qed.

Lemma after_first_None s c : contains s c = false → after_first s c = None.
Proof.
  induction s as [|a r IH]; simpl; [done|].
  by destruct (decide (a = c)).
Qed.

Lemma after_first_Some s c : contains s c = true → ∃ r, after_first s c = Some r.
Proof.
  induction s as [|a r IH]; simpl; [done|].
  destruct (decide (a = c)); eauto.
Qed.

Lemma elem_of_pair (c a b : ascii) : c ∈ [b; a] ↔ c = b ∨ c = a.
Proof. rewrite !elem_of_cons, elem_of_nil. tauto. Qed.

(** Cutting at the first [a], then at the first [b], cuts at the first of
    the two. *)
Lemma before_before s a b : before (before s a) b = before_any s [b; a].
Proof.
  induction s as [|c r IH]; simpl; [done|].
  destruct (decide (c = a)) as [->|Ha]; simpl.
  - rewrite decide_True by (apply elem_of_pair; auto). done.
  - destruct (decide (c = b)) as [->|Hb].
    + rewrite decide_True by (apply elem_of_pair; auto). done.
    + rewrite decide_False by (rewrite elem_of_pair; tauto). by rewrite IH.
Qed.

Lemma before_any_before s a b :
  contains (before s b) a = false → before_any s [b; a] = before s b.
Proof.
  induction s as [|c r IH]; simpl; [done|].
  destruct (decide (c = b)) as [->|Hb].
  - rewrite decide_True by (apply elem_of_pair; auto). done.
  - simpl. destruct (decide (c = a)) as [->|Ha]; [done|].
    intros H. rewrite decide_False by (rewrite elem_of_pair; tauto). by rewrite IH.
Qed.

End PyFacts.

(** ** The line-pair extractor *)

Section Iwslt2017Facts.
Import Py Iwslt2017.
Arguments row_step : simpl never.

Lemma startswith_seg s : startswith s "<seg" = true → startswith s "<" = true.
Proof.
  destruct s as [|c r]; simpl; [done|].
  by destruct (decide ("<"%char = c)).
Qed.

(** A row whose stripped source does not start with [<] is yielded as it
    is, stripped. *)
Lemma row_step_plain s t :
  startswith (strip s) "<" = false →
  row_step s t = Ok (Some {| source := strip s; target := strip t |}).
Proof. unfold row_step. by intros ->. Qed.

(** A segment row: both rows are cut after their first [>], and the piece
    that follows is cut at the first [<] or [>]. *)
Lemma row_step_seg s t :
  startswith (strip s) "<seg" = true →
  row_step s t
  = match after_first (strip s) ">", after_first (strip t) ">" with
    | Some rs, Some rt =>
        Ok (Some {| source := strip (before_any rs ["<"; ">"]%char);
                    target := strip (before_any rt ["<"; ">"]%char) |})
    | _, _ => Err IndexError
    end.
Proof.
  intros Hseg. unfold row_step.
  rewrite (startswith_seg _ Hseg), Hseg, split_1.
  destruct (after_first (strip s) ">") as [rs|]; simpl; [|done].
  rewrite split_0; simpl. rewrite split_1.
  destruct (after_first (strip t) ">") as [rt|]; simpl; [|done].
  rewrite split_0; simpl. by rewrite !before_before.
Qed.

Lemma row_step_errors s t e : row_step s t = Err e → e = IndexError.
Proof.
  unfold row_step.
  destruct (startswith (strip s) "<"); [|done].
  destruct (startswith (strip s) "<seg"); [|done].
  destruct (getitem (split (strip s) ">") 1) eqn:E1; simpl;
    [|intros [= <-]; by eapply getitem_errors].
  rewrite split_0; simpl.
  destruct (getitem (split (strip t) ">") 1) eqn:E2; simpl;
    [|intros [= <-]; by eapply getitem_errors].
  rewrite split_0; simpl. done.
Qed.

(** The only way the loop ends early is [IndexError]. *)
Lemma generate_loop_raised rows id_ e :
  raised (generate_loop rows id_) = Some e → e = IndexError.
Proof.
  revert id_. induction rows as [|[s t] rows IH]; intros id_; simpl; [done|].
  destruct (row_step s t) as [[r|]|e'] eqn:E; simpl; eauto.
  intros [= <-]. by eapply row_step_errors.
Qed.

(** A row that raises ends every run it is part of. *)
Lemma generate_loop_row_raises rows id_ s t e :
  (s, t) ∈ rows → row_step s t = Err e →
  raised (generate_loop rows id_) = Some IndexError.
Proof.
  intros Hin Hrow. revert id_.
  induction rows as [|[s' t'] rows IH]; intros id_; [by apply elem_of_nil in Hin|].
  apply elem_of_cons in Hin as [[= <- <-]|Hin]; simpl.
  - rewrite Hrow. simpl. f_equal. by eapply row_step_errors.
  - destruct (row_step s' t') as [[r|]|e'] eqn:E; simpl; auto.
    f_equal. by eapply row_step_errors.
Qed.

Lemma generate_loop_plain rows id_ :
  Forall (λ st, startswith (strip st.1) "<" = false) rows →
  generate_loop rows id_
  = {| yielded := imap (λ i st, ((id_ + Z.of_nat i)%Z,
                                 {| source := strip st.1; target := strip st.2 |})) rows;
       raised := None |}.
Proof.
  intros H. revert id_.
  induction H as [|[s t] rows Hs _ IH]; intros id_; simpl; [done|].
  simpl in Hs. rewrite (row_step_plain _ _ Hs), IH. simpl.
  f_equal. f_equal; [f_equal; lia|].
  apply imap_ext. intros i [s' t'] _. simpl. f_equal. lia.
Qed.

Lemma Forall_zip_fst (P : string → Prop) (sf tf : list string) :
  Forall P sf → Forall (λ st, P st.1) (zip sf tf).
Proof.
  intros H. revert tf.
  induction H as [|s sf Hs _ IH]; intros [|t tf]; simpl; constructor; auto.
Qed.

Lemma imap_ids {A B} (g : A → B) (l : list A) (id_ : Z) :
  (imap (λ i a, ((id_ + Z.of_nat i)%Z, g a)) l).*1 = seqZ id_ (Z.of_nat (length l)).
Proof.
  revert id_. induction l as [|a l IH]; intros id_; [done|].
  rewrite imap_cons, fmap_cons. simpl length.
  rewrite seqZ_cons by lia. simpl. f_equal; [lia|].
  replace (Z.pred (Z.of_nat (S (length l)))) with (Z.of_nat (length l)) by lia.
  rewrite <- IH. f_equal. apply imap_ext. intros i x _. simpl. f_equal. lia.
Qed.

(** C6, as amended: when no source line, once stripped as the loop does
    first, starts with [<], the extractor runs to its end without an error
    and yields one record for each pair of [zip(sf, tf)], in order, made of
    the stripped source and target lines, with the identifiers 0, 1, ...,
    n-1, where n is the number of pairs. The target lines are not tested. *)
Theorem C6_plain_lines_one_record_per_pair (sf tf : list string) :
  Forall (λ s, startswith (strip s) "<" = false) sf →
  raised (_generate_examples sf tf) = None
  ∧ yielded (_generate_examples sf tf)
    = imap (λ i st, (Z.of_nat i, {| source := strip st.1; target := strip st.2 |}))
        (zip sf tf)
  ∧ (yielded (_generate_examples sf tf)).*1
    = seqZ 0 (Z.of_nat (length sf `min` length tf))
  ∧ NoDup (yielded (_generate_examples sf tf)).*1.
Proof.
  intros H. unfold _generate_examples.
  rewrite (generate_loop_plain _ 0 (Forall_zip_fst _ sf tf H)). simpl.
  assert ((imap (λ i st, ((0 + Z.of_nat i)%Z,
                          {| source := strip st.1; target := strip st.2 |}))
             (zip sf tf)).*1
          = seqZ 0 (Z.of_nat (length sf `min` length tf))) as Hids.
  { rewrite (imap_ids (λ st, {| source := strip st.1; target := strip st.2 |})).
    by rewrite length_zip_with. }
  split; [done|]. split; [|split].
  - apply imap_ext. intros i [s t] _. simpl. f_equal.
  - exact Hids.
  - rewrite Hids. apply NoDup_seqZ.
Qed.

(** Two plain lines against three: two records, numbered 0 and 1. *)
Lemma C6_witness :
  raised (_generate_examples ["Hello world" +:+ String "010" ""; "  Bye "]
            ["Bonjour le monde" +:+ String "010" ""; "Salut"; "extra"]) = None
  ∧ yielded (_generate_examples ["Hello world" +:+ String "010" ""; "  Bye "]
               ["Bonjour le monde" +:+ String "010" ""; "Salut"; "extra"])
    = [(0%Z, {| source := "Hello world"; target := "Bonjour le monde" |});
       (1%Z, {| source := "Bye"; target := "Salut" |})].
Proof.
  destruct (C6_plain_lines_one_record_per_pair
              ["Hello world" +:+ String "010" ""; "  Bye "]
              ["Bonjour le monde" +:+ String "010" ""; "Salut"; "extra"])
    as (Hraised & Hyielded & _ & _).
  - repeat constructor.
  - split; [exact Hraised|]. rewrite Hyielded. reflexivity.
Defined.

(** C6 as stated fails: the test for [<] is made after [strip()]. In the
    files [[" <doc>"]] and [["x"]] no line starts with [<], yet the source
    line is a tag line once stripped, and the pair yields no record. *)
Lemma C6_counterexample :
  ¬ (∀ sf tf : list string,
       Forall (λ s, startswith s "<" = false) sf →
       Forall (λ s, startswith s "<" = false) tf →
       raised (_generate_examples sf tf) = None
       ∧ yielded (_generate_examples sf tf)
         = imap (λ i st, (Z.of_nat i, {| source := strip st.1; target := strip st.2 |}))
             (zip sf tf)
       ∧ (yielded (_generate_examples sf tf)).*1
         = seqZ 0 (Z.of_nat (length sf `min` length tf))).
Proof.
  intros H.
  destruct (H [" <doc>"] ["x"]) as (_ & Hyielded & _).
  - repeat constructor.
  - repeat constructor.
  - discriminate Hyielded.
Qed.

(** C4, as amended: when the stripped source line starts with [<seg] and the
    source line or the target line has no [>], the loop raises [IndexError]
    on reaching the pair, yields nothing for it, and every run that has the
    pair among its rows ends in [IndexError]. When both lines have a [>]
    the pair yields a record whether or not a [<] follows: a missing [<] is
    not an error. *)
Theorem C4_missing_gt_raises_IndexError (s t : string) :
  startswith (strip s) "<seg" = true →
  (contains (strip s) ">" = false ∨ contains (strip t) ">" = false →
   (∀ rows id_,
      generate_loop ((s, t) :: rows) id_ = {| yielded := []; raised := Some IndexError |})
   ∧ (∀ sf tf, (s, t) ∈ zip sf tf →
        raised (_generate_examples sf tf) = Some IndexError))
  ∧ (contains (strip s) ">" = true → contains (strip t) ">" = true →
     ∃ r, row_step s t = Ok (Some r)).
Proof.
  intros Hseg. split.
  - intros Hgt.
    assert (row_step s t = Err IndexError) as Hrow.
    { rewrite (row_step_seg _ _ Hseg).
      destruct Hgt as [Hgt|Hgt]; rewrite (after_first_None _ _ Hgt);
        [done|by destruct (after_first (strip s) ">")]. }
    split.
    + intros rows id_. simpl. by rewrite Hrow.
    + intros sf tf Hin. by eapply generate_loop_row_raises.
  - intros [rs Hs]%after_first_Some [rt Ht]%after_first_Some.
    rewrite (row_step_seg _ _ Hseg), Hs, Ht. eauto.
Qed.

(** A segment line cut short before its [>], against a full target line. *)
Lemma C4_witness :
  generate_loop [("<seg id=1", "<seg id=1> Bonjour </seg>")] 0
  = {| yielded := []; raised := Some IndexError |}.
Proof.
  destruct (C4_missing_gt_raises_IndexError "<seg id=1" "<seg id=1> Bonjour </seg>")
    as [Hraises _]; [reflexivity|].
  destruct Hraises as [Hloop _]; [left; reflexivity|].
  apply Hloop.
Defined.

(** C4 as stated fails: the source line [<seg id=1> Hello] starts with
    [<seg] and has no [<] after its [>], and the pair yields a record
    instead of raising. *)
Lemma C4_counterexample :
  ¬ (∀ s t rows id_,
       startswith (strip s) "<seg" = true →
       (contains (strip s) ">" = false
        ∨ ∃ rest, after_first (strip s) ">" = Some rest ∧ contains rest "<" = false) →
       raised (generate_loop ((s, t) :: rows) id_) = Some IndexError).
Proof.
  intros H.
  assert (raised (generate_loop [("<seg id=1> Hello", "<seg id=1> Bonjour </seg>")] 0)
          = Some IndexError) as Hraised.
  { apply H; [reflexivity|]. right. exists " Hello". split; reflexivity. }
  discriminate Hraised.
Qed.

(** C7, as amended: for a pair whose stripped source line starts with
    [<seg] and whose two lines have a [>], the loop yields, under the
    current identifier, the text of each line between its first [>] and the
    first [<] or [>] after it (the end of the line when there is none),
    stripped, and goes on with the next identifier. When no [>] comes
    before the [<] that follows, this is the text strictly between the
    first [>] and the following [<]. The pair of the example yields
    Hello and Bonjour. *)
Theorem C7_segment_text (s t rs rt : string) :
  startswith (strip s) "<seg" = true →
  after_first (strip s) ">" = Some rs →
  after_first (strip t) ">" = Some rt →
  (∀ rows id_,
     generate_loop ((s, t) :: rows) id_
     = {| yielded :=
            (id_, {| source := strip (before_any rs ["<"; ">"]%char);
                     target := strip (before_any rt ["<"; ">"]%char) |})
            :: yielded (generate_loop rows (id_ + 1));
          raised := raised (generate_loop rows (id_ + 1)) |})
  ∧ (∀ xs, text_between_first_gt_and_following_lt (strip s) = Some xs →
       contains xs ">" = false → before_any rs ["<"; ">"]%char = xs)
  ∧ (∀ xt, text_between_first_gt_and_following_lt (strip t) = Some xt →
       contains xt ">" = false → before_any rt ["<"; ">"]%char = xt)
  ∧ _generate_examples [seg_hello] [seg_bonjour]
    = {| yielded := [(0%Z, {| source := "Hello"; target := "Bonjour" |})];
         raised := None |}.
Proof.
  intros Hseg Hs Ht. split; [|split; [|split]].
  - intros rows id_. simpl. by rewrite (row_step_seg _ _ Hseg), Hs, Ht.
  - unfold text_between_first_gt_and_following_lt. rewrite Hs.
    intros xs. destruct (contains rs "<"); [|done].
    intros [= <-] Hno. by apply before_any_before.
  - unfold text_between_first_gt_and_following_lt. rewrite Ht.
    intros xt. destruct (contains rt "<"); [|done].
    intros [= <-] Hno. by apply before_any_before.
  - reflexivity.
Qed.

(** The example of the specification, through the theorem. *)
Lemma C7_witness :
  generate_loop [(seg_hello, seg_bonjour)] 0
  = {| yielded := [(0%Z, {| source := "Hello"; target := "Bonjour" |})];
       raised := None |}.
Proof.
  destruct (C7_segment_text seg_hello seg_bonjour " Hello </seg>" " Bonjour </seg>")
    as [Hloop _]; [reflexivity..|].
  rewrite Hloop. reflexivity.
Defined.

(** C7 as stated fails on a segment whose text holds a [>]: the text
    between the first [>] and the following [<] is [ a > b ], and the loop
    yields [a]. *)
Lemma C7_counterexample :
  ¬ (∀ s t xs xt,
       startswith (strip s) "<seg" = true →
       text_between_first_gt_and_following_lt (strip s) = Some xs →
       text_between_first_gt_and_following_lt (strip t) = Some xt →
       row_step s t = Ok (Some {| source := strip xs; target := strip xt |})).
Proof.
  intros H.
  specialize (H "<seg id=1> a > b </seg>" "<seg id=1> c </seg>" " a > b " " c "
                eq_refl eq_refl eq_refl).
  discriminate H.
Qed.

End Iwslt2017Facts.

(** ** The dummy-data command *)

Section SlurpFacts.
Import Py DummyData.

Lemma count_lines_length f n : count_lines f n = (n + Z.of_nat (length f))%Z.
Proof.
  revert n. induction f as [|x f IH]; intros n; simpl; [lia|].
  rewrite IH. lia.
Qed.

Lemma keep_lines_acc f i total nf nl acc :
  keep_lines f i total nf nl acc = acc ++ keep_lines f i total nf nl [].
Proof.
  revert i acc. induction f as [|x f IH]; intros i acc; simpl.
  - by rewrite app_nil_r.
  - rewrite IH. rewrite (IH _ (if keeps _ _ _ _ then _ else _)).
    destruct (keeps i total nf nl); simpl; [|done]. by rewrite <- app_assoc.
Qed.

Lemma keep_lines_cons x f i total nf nl :
  keep_lines (x :: f) i total nf nl []
  = (if keeps i total nf nl then [x] else []) ++ keep_lines f (i + 1) total nf nl [].
Proof. simpl. rewrite keep_lines_acc. by destruct (keeps i total nf nl). Qed.

(** The loop is the comprehension over [enumerate(f)] that keeps a line
    when its index meets the condition. *)
Lemma keep_lines_filter f i total nf nl :
  keep_lines f i total nf nl []
  = (filter (λ p, keeps p.1 total nf nl = true)
       (imap (λ k line, ((i + Z.of_nat k)%Z, line)) f)).*2.
Proof.
  revert i. induction f as [|x f IH]; intros i; [done|].
  rewrite keep_lines_cons, imap_cons, filter_cons. simpl.
  rewrite Z.add_0_r, IH.
  assert (imap (λ k line, ((i + 1 + Z.of_nat k)%Z, line)) f
          = imap ((λ k line, ((i + Z.of_nat k)%Z, line)) ∘ S) f) as ->.
  { apply imap_ext. intros k y _. simpl. f_equal. lia. }
  destruct (decide (keeps i total nf nl = true)) as [->|Hk]; [done|].
  by apply not_true_is_false in Hk as ->.
Qed.

(** While the index is at most [n_first], lines are kept: the first lines
    up to index [n_first] are all there. *)
Lemma keep_lines_head (k : nat) f i total nf nl :
  (i + Z.of_nat k = nf + 1)%Z →
  keep_lines f i total nf nl []
  = take k f ++ keep_lines (drop k f) (i + Z.of_nat k) total nf nl [].
Proof.
  revert f i. induction k as [|k IH]; intros f i Hk.
  - simpl. by rewrite Z.add_0_r, drop_0.
  - destruct f as [|x f]; [done|].
    rewrite keep_lines_cons. unfold keeps at 1.
    destruct (Z.leb_spec i nf) as [_|?]; [|lia]. simpl.
    f_equal. rewrite (IH f (i + 1)%Z) by lia. do 2 f_equal. lia.
Qed.

(** Past index [n_first], a line is kept when at most [n_last] lines are
    left, the line included. *)
Lemma keep_lines_tail f i total nf nl :
  (nf < i)%Z → (0 ≤ nl)%Z → total = (i + Z.of_nat (length f))%Z →
  keep_lines f i total nf nl [] = drop (length f - Z.to_nat nl) f.
Proof.
  revert i. induction f as [|x f IH]; intros i Hi Hnl Htotal; [done|].
  rewrite keep_lines_cons, (IH (i + 1)%Z) by (simpl in Htotal; lia).
  unfold keeps. simpl length in *.
  destruct (Z.leb_spec i nf) as [?|_]; [lia|]. simpl.
  destruct (Z.geb_spec i (total - nl)) as [Hge|Hlt].
  - replace (S (length f) - Z.to_nat nl) with 0 by lia.
    replace (length f - Z.to_nat nl) with 0 by lia. done.
  - replace (S (length f) - Z.to_nat nl) with (S (length f - Z.to_nat nl)) by lia.
    done.
Qed.

(** For counts that are not negative: the first [n_first + 1] lines, then
    the last [n_last] of the lines that follow them. *)
Lemma keep_lines_counts f nf nl :
  (0 ≤ nf)%Z → (0 ≤ nl)%Z →
  keep_lines f 0 (Z.of_nat (length f)) nf nl []
  = take (Z.to_nat nf + 1) f
    ++ drop (length f - (Z.to_nat nf + 1) - Z.to_nat nl) (drop (Z.to_nat nf + 1) f).
Proof.
  intros Hnf Hnl.
  rewrite (keep_lines_head (Z.to_nat nf + 1)) by lia. f_equal.
  destruct (decide (Z.to_nat nf + 1 ≤ length f)).
  - rewrite keep_lines_tail; [by rewrite length_drop|lia|lia|].
    rewrite length_drop. lia.
  - (* the file is shorter than the head: nothing is left *)
    rewrite (drop_ge f) by lia. by rewrite drop_nil.
Qed.

Lemma py_open_read_io w path content :
  builtins_open w = io_open →
  fs w !! path = Some (text_file content) →
  py_open path mode_r w = (w, Ok (file_handle path)).
Proof.
  intros Hopen Hfs. unfold py_open, recursion_limit. rewrite Hopen.
  simpl. unfold io_open_impl. by rewrite Hfs.
Qed.

(** On a readable file, with the interpreter's own [open], [slurp] returns
    what its two loops compute from the lines of the file, and changes
    nothing. *)
Lemma slurp_ok w filename content nf nl :
  builtins_open w = io_open →
  fs w !! filename = Some (text_file content) →
  slurp filename nf nl w
  = (w, Ok (keep_lines content 0 (Z.of_nat (length content)) nf nl [])).
Proof.
  intros Hopen Hfs. unfold slurp, bind.
  rewrite (py_open_read_io _ _ _ Hopen Hfs).
  unfold read_lines, ret. rewrite Hfs.
  rewrite (py_open_read_io _ _ _ Hopen Hfs), Hfs.
  by rewrite count_lines_length.
Qed.

(** C5: on a file of ten lines, with [n_first = 2] and [n_last = 1],
    [slurp] returns the lines of index 0, 1, 2 and 9, in that order; they
    are the lines whose index [i] has [i <= 2] or [i >= 10 - 1], and an
    index below 10 meets that condition exactly when it is 0, 1, 2 or 9. *)
Theorem C5_ten_lines_first2_last1 (w : world) (filename : string)
    (l0 l1 l2 l3 l4 l5 l6 l7 l8 l9 : string) :
  builtins_open w = io_open →
  fs w !! filename = Some (text_file [l0; l1; l2; l3; l4; l5; l6; l7; l8; l9]) →
  slurp filename 2 1 w = (w, Ok [l0; l1; l2; l9])
  ∧ [l0; l1; l2; l9]
    = (filter (λ p, (p.1 ≤ 2 ∨ 10 - 1 ≤ p.1)%Z)
         (enumerate [l0; l1; l2; l3; l4; l5; l6; l7; l8; l9])).*2
  ∧ ∀ i, (0 ≤ i < 10)%Z → keeps i 10 2 1 = true ↔ i ∈ [0; 1; 2; 9]%Z.
Proof.
  intros Hopen Hfs. split; [|split].
  - by rewrite (slurp_ok _ _ _ 2 1 Hopen Hfs).
  - reflexivity.
  - intros i Hi. unfold keeps.
    rewrite orb_true_iff, Z.leb_le, Z.geb_le, !elem_of_cons, elem_of_nil. lia.
Qed.

Lemma C5_witness :
  slurp "real/train.txt" 2 1 world_ten
  = (world_ten,
     Ok ((λ s, s +:+ String "010" "") <$> ["zero"; "one"; "two"; "nine"])).
Proof.
  destruct (C5_ten_lines_first2_last1 world_ten "real/train.txt"
              ("zero" +:+ String "010" "") ("one" +:+ String "010" "")
              ("two" +:+ String "010" "") ("three" +:+ String "010" "")
              ("four" +:+ String "010" "") ("five" +:+ String "010" "")
              ("six" +:+ String "010" "") ("seven" +:+ String "010" "")
              ("eight" +:+ String "010" "") ("nine" +:+ String "010" ""))
    as [Hslurp _]; [reflexivity..|].
  exact Hslurp.
Defined.




(** C3, at a file of ten lines with [n_first = 2] and [n_last = 1]: [slurp]
    returns four lines, the first three and the last one, which is not the
    first two lines followed by the last one. *)
Theorem C3_slurp_keeps_a_third_head_line :
  slurp "real/train.txt" 2 1 world_ten
  = (world_ten, Ok (take 3 ten_lines ++ drop (10 - 1) ten_lines))
  ∧ take 3 ten_lines ++ drop (10 - 1) ten_lines
    ≠ take 2 ten_lines ++ drop (10 - 1) ten_lines.
Proof. split; [reflexivity|discriminate]. Qed.

End SlurpFacts.

Section GetFilesFacts.
Import Py DummyData.

(** The computation has ended in the state and with the result at hand. *)
Local Ltac ends_here := intros [= ? ?]; subst; simpl; done.

(** Opening a file never rebinds [builtins.open] or [builtins._open]. *)
Lemma call_open_builtins depth fn path m w w' r :
  call_open depth fn path m w = (w', r) →
  builtins_open w' = builtins_open w ∧ builtins__open w' = builtins__open w.
Proof.
  revert fn w. induction depth as [|depth IH]; intros fn w; simpl.
  - ends_here.
  - destruct fn as [|files mock].
    + unfold io_open_impl. destruct m; [|ends_here].
      destruct (fs w !! path) as [[]|]; simpl; ends_here.
    + destruct mock; [ends_here|]. simpl.
      remember (builtins__open w) as o eqn:Ho. destruct o as [fn'|]; [|ends_here].
      intros H. apply IH in H as [H1 H2]. simpl in H1, H2. by rewrite Ho.
Qed.

Lemma run_script_builtins {A} (s : script A) w w' r :
  run_script s w = (w', r) →
  builtins_open w' = builtins_open w ∧ builtins__open w' = builtins__open w.
Proof.
  revert w. induction s as [a|e|path m k IH|k IH]; intros w; simpl;
    [ends_here..| |by apply IH].
  unfold bind, py_open.
  destruct (call_open _ _ path m w) as [w1 [h|e]] eqn:E;
    apply call_open_builtins in E as [E1 E2].
  - intros [H1 H2]%IH. split; congruence.
  - intros [= <- _]. done.
Qed.

Lemma drive_splits_builtins b splits w w' r :
  drive_splits b splits w = (w', r) →
  builtins_open w' = builtins_open w ∧ builtins__open w' = builtins__open w.
Proof.
  revert w. induction splits as [|split splits IH]; intros w; simpl;
    [ends_here|].
  unfold bind.
  destruct (run_script _ w) as [w1 [[]|e]] eqn:E;
    apply run_script_builtins in E as [E1 E2].
  - intros [H1 H2]%IH. split; congruence.
  - intros [= <- _]. done.
Qed.

(** On a normal return, [builtins.open] is what it was before the call. *)
Lemma get_files_restores_on_return b dl mock w w' files :
  get_files b dl mock w = (w', Ok files) → builtins_open w' = builtins_open w.
Proof.
  unfold get_files, bind, modify. simpl.
  destruct (run_script _ _) as [w1 [splits|e]] eqn:E1; [|done].
  apply run_script_builtins in E1 as [_ E1]. simpl in E1.
  destruct (drive_splits _ _ _) as [w2 [[]|e]] eqn:E2; [|done].
  apply drive_splits_builtins in E2 as [_ E2].
  unfold get_builtins__open. rewrite E2, E1. ends_here.
Qed.

(** When the builder raises, [get_files] raises too, and [builtins.open]
    is left bound to the [monkey_patch_open] of the call. *)
Lemma get_files_leaves_patch_on_error b dl mock w w' e :
  get_files b dl mock w = (w', Err e) →
  builtins_open w' = monkey_patch_open (length (lists w)) mock.
Proof.
  unfold get_files, bind, modify. simpl.
  destruct (run_script _ _) as [w1 [splits|e1]] eqn:E1;
    pose proof (run_script_builtins _ _ _ _ E1) as [H1 H1']; simpl in H1, H1';
    [|ends_here].
  destruct (drive_splits _ _ _) as [w2 [[]|e2]] eqn:E2;
    pose proof (drive_splits_builtins _ _ _ _ _ E2) as [H2 H2'];
    [|intros [= <- _]; congruence].
  unfold get_builtins__open. rewrite H2', H1'. done.
Qed.

(** A run without an error: the one file that the builder opens is recorded,
    and [builtins.open] is the interpreter's own [open] again. *)
Example get_files_one_file :
  (get_files one_file_builder (DownloadManager "sample") false world_ten).2
  = Ok ["real/train.txt"]
  ∧ builtins_open
      (get_files one_file_builder (DownloadManager "sample") false world_ten).1
    = io_open.
Proof. split; reflexivity. Qed.

(** C1, at a builder whose example generation raises: [get_files] ends with
    that error, and [builtins.open], which was the interpreter's own [open]
    before the call, is the [monkey_patch_open] of the call after it; a
    later [open] of a real file then hands out an empty temporary file. *)
Theorem C1_open_left_patched_on_error :
  builtins_open world_ten = io_open
  ∧ (get_files raising_builder (MockDownloadManager "sample" None "1.0.0") true
       world_ten).2 = Err IndexError
  ∧ builtins_open
      (get_files raising_builder (MockDownloadManager "sample" None "1.0.0") true
         world_ten).1 = monkey_patch_open 0 true
  ∧ (py_open "real/train.txt" mode_r
       (get_files raising_builder (MockDownloadManager "sample" None "1.0.0") true
          world_ten).1).2 = Ok temp_handle.
Proof. repeat apply conj; reflexivity. Qed.

End GetFilesFacts.

Section GetExpectedFilesFacts.
Import Py DummyData.
Variable dummy_data_folder_of : option builder_config → string → string.
Variable dummy_file_name : string.

(** When the probe of [_split_generators] ends in [FileNotFoundError], the
    handler prints its message, and the next statement that reads
    [generator_splits] raises [UnboundLocalError]. *)
Lemma get_expected_files_unbound self config version b print_instructions
    w w1 w2 filename :
  makedirs (path_join (_path_to_dataset self) (dummy_data_folder_of config version)) w
  = (w1, Ok tt) →
  run_script (_split_generators b (MockDownloadManager (_dataset_name self) config version))
    w1 = (w2, Err (FileNotFoundError filename)) →
  get_expected_files dummy_data_folder_of dummy_file_name self config version b
    print_instructions w
  = (print (msg_opens_files_in_split_generators (_dataset_name self) config filename) w2,
     Err (UnboundLocalError "generator_splits")).
Proof.
  intros Hdirs Hprobe. unfold get_expected_files, bind.
  rewrite Hdirs. unfold probe_split_generators. rewrite Hprobe. done.
Qed.

End GetExpectedFilesFacts.

Section RunExamples.
Import Py DummyData.

(** Without an error in the probe, the files that the mock run opens are
    returned with the dummy-data folder. *)
Example get_expected_files_one_file :
  (get_expected_files (λ _ version, "dummy/" +:+ version) "dummy_data"
     (sample_command false 0 0) None "1.0.0" one_file_builder true world_ten).2
  = Ok ("datasets/sample/dummy/1.0.0", ["real/train.txt"]).
Proof. reflexivity. Qed.

(** A whole [auto_zip]: the archive holds the trimmed file under its
    expected name, and the trimmed file itself is removed from the folder. *)
Example auto_zip_one_file :
  let w := (auto_zip (sample_command true 2 1) None "1.0.0" one_file_builder
              "datasets/sample/dummy/1.0.0" ["train.txt"] world_ten).1 in
  fs w !! "datasets/sample/dummy/1.0.0/dummy_data.zip"
  = Some (zip_file [("train.txt",
                     (λ s, s +:+ String "010" "") <$> ["zero"; "one"; "two"; "nine"])])
  ∧ fs w !! "datasets/sample/dummy/1.0.0/train.txt" = None
  ∧ fs w !! "real/train.txt" = Some (text_file ten_lines).
Proof. repeat apply conj; reflexivity. Qed.

End RunExamples.

Section GetExpectedFilesClaim.
Import Py DummyData.

(** C2, at a builder that opens a missing file in [_split_generators]:
    the [FileNotFoundError] is caught and the guidance is printed, and then
    [get_expected_files] raises [UnboundLocalError] for [generator_splits]
    and returns nothing; the files to create are never looked for. *)
Theorem C2_probe_error_then_UnboundLocalError :
  get_expected_files (λ _ version, "dummy/" +:+ version) "dummy_data"
    (sample_command false 0 0) None "1.0.0" early_opening_builder true (fresh_world ∅)
  = (World ∅ {[ "datasets/sample/dummy/1.0.0" ]} io_open None []
       [msg_opens_files_in_split_generators "sample" None "dummy_data/labels.txt"],
     Err (UnboundLocalError "generator_splits")).
Proof.
  etrans; [eapply get_expected_files_unbound; reflexivity|].
  reflexivity.
Qed.

End GetExpectedFilesClaim.

Section AutoZipFacts.
Import Py DummyData.

Lemma filter_none {A} (P : A → Prop) `{∀ x, Decision (P x)} (l : list A) :
  Forall (λ x, ¬ P x) l → filter P l = [].
Proof.
  induction 1 as [|x l Hx _ IH]; [done|].
  by rewrite filter_cons_False.
Qed.

(** No real file with the base name: the [Exception] that names the file. *)
Lemma find_real_file_unmatched real_files file_to_create :
  Forall (λ r, basename r ≠ basename file_to_create) real_files →
  find_real_file real_files file_to_create
  = Err (Exception ("We could not find the file " +:+ file_to_create
                    +:+ " in the real downladed files")).
Proof.
  intros H. unfold find_real_file.
  by rewrite (filter_none (λ r, basename r = basename file_to_create) _ H).
Qed.

(** A file that is found is a real file with the base name asked for. *)
Lemma find_real_file_matched real_files file_to_create real_file :
  find_real_file real_files file_to_create = Ok real_file →
  real_file ∈ real_files ∧ basename real_file = basename file_to_create.
Proof.
  unfold find_real_file. rewrite getitem_0.
  destruct (filter _ real_files) as [|r l] eqn:E; [done|].
  intros [= <-].
  assert (r ∈ filter (λ x, basename x = basename file_to_create) real_files) as Hin
    by (rewrite E; left).
  by apply list_elem_of_filter in Hin as [? ?].
Qed.

Lemma trim_files_app self real_files folder pre post w :
  trim_files self real_files folder (pre ++ post) w
  = match trim_files self real_files folder pre w with
    | (w1, Ok _) => trim_files self real_files folder post w1
    | (w1, Err e) => (w1, Err e)
    end.
Proof.
  revert w. induction pre as [|f pre IH]; intros w; [done|].
  simpl. unfold bind, lift.
  destruct (find_real_file real_files f) as [r|e]; [|done].
  destruct (slurp r _ _ w) as [w1 [lines|e]]; [|done].
  destruct (makedirs _ w1) as [w2 [[]|e]]; [|done].
  destruct (py_open _ mode_w w2) as [w3 [h|e]]; [|done].
  destruct (write_lines h lines w3) as [w4 [[]|e]]; [|done].
  apply IH.
Qed.

(** When the first loop ends without an error, each expected file has a
    real file with its base name. *)
Lemma trim_files_ok_matched self real_files folder files w w' :
  trim_files self real_files folder files w = (w', Ok tt) →
  Forall (λ f, ∃ r, r ∈ real_files ∧ basename r = basename f) files.
Proof.
  revert w. induction files as [|f files IH]; intros w; [constructor|].
  simpl. unfold bind, lift.
  destruct (find_real_file real_files f) as [r|e] eqn:Hfind; [|done].
  destruct (slurp r _ _ w) as [w1 [lines|e]]; [|done].
  destruct (makedirs _ w1) as [w2 [[]|e]]; [|done].
  destruct (py_open _ mode_w w2) as [w3 [h|e]]; [|done].
  destruct (write_lines h lines w3) as [w4 [[]|e]]; [|done].
  intros Hrest. constructor; [|by eapply IH].
  exists r. by apply find_real_file_matched.
Qed.

(** C8: with the real files that [get_real_files] returns, (1) when
    [auto_zip] ends without an error, each expected file has a real file of
    the same base name, and (2) when the expected files before [f] are
    trimmed without an error and no real file has the base name of [f],
    [auto_zip] raises the [Exception] whose message names [f]. *)
Theorem C8_unmatched_expected_file_is_fatal (self : DummyDataCommand)
    (config : option builder_config) (version : string) (b : builder)
    (folder : string) (files_to_create real_files : list string) (w w1 : world) :
  get_real_files self b w = (w1, Ok real_files) →
  (∀ w', auto_zip self config version b folder files_to_create w = (w', Ok tt) →
     Forall (λ f, ∃ r, r ∈ real_files ∧ basename r = basename f) files_to_create)
  ∧ (∀ pre f post w2,
       files_to_create = pre ++ f :: post →
       trim_files self real_files folder pre w1 = (w2, Ok tt) →
       Forall (λ r, basename r ≠ basename f) real_files →
       auto_zip self config version b folder files_to_create w
       = (w2, Err (Exception ("We could not find the file " +:+ f
                              +:+ " in the real downladed files")))).
Proof.
  intros Hreal. split.
  - intros w'. unfold auto_zip, bind at 1. rewrite Hreal.
    unfold bind at 1.
    destruct (trim_files _ _ _ _ w1) as [w2 [[]|e]] eqn:Htrim; [|done].
    intros _. by eapply trim_files_ok_matched.
  - intros pre f post w2 -> Hpre Hnone.
    unfold auto_zip, bind at 1. rewrite Hreal.
    unfold bind at 1. rewrite trim_files_app, Hpre.
    simpl. unfold bind at 1, lift.
    by rewrite (find_real_file_unmatched _ _ Hnone).
Qed.

(** The real run opens [real/train.txt]; [train.txt] is trimmed, and
    [valid.txt] has no real file. *)
Lemma C8_witness :
  (auto_zip (sample_command true 2 1) None "1.0.0" one_file_builder
     "datasets/sample/dummy/1.0.0" ["train.txt"; "valid.txt"] world_ten).2
  = Err (Exception "We could not find the file valid.txt in the real downladed files").
Proof.
  destruct (C8_unmatched_expected_file_is_fatal (sample_command true 2 1) None "1.0.0"
              one_file_builder "datasets/sample/dummy/1.0.0" ["train.txt"; "valid.txt"]
              ["real/train.txt"] world_ten
              (get_real_files (sample_command true 2 1) one_file_builder world_ten).1)
    as [_ Hfatal]; [reflexivity|].
  rewrite (Hfatal ["train.txt"] "valid.txt" []
             (trim_files (sample_command true 2 1) ["real/train.txt"]
                "datasets/sample/dummy/1.0.0" ["train.txt"]
                (get_real_files (sample_command true 2 1) one_file_builder
                   world_ten).1).1).
  - reflexivity.
  - reflexivity.
  - reflexivity.
  - repeat constructor. discriminate.
Defined.

End AutoZipFacts.

Section CommandFacts.
Import Py DummyData.

Lemma before_no_sep s sep : contains s sep = false → before s sep = s.
Proof.
  induction s as [|c r IH]; simpl; [done|].
  destruct (decide (c = sep)); [done|]. intros H. by rewrite IH.
Qed.

(** A string without the separator is one piece. *)
Lemma split_no_sep s sep : contains s sep = false → split s sep = [s].
Proof.
  intros H. by rewrite split_unfold, (after_first_None _ _ H), before_no_sep.
Qed.

Lemma split_not_nil s sep : split s sep ≠ [].
Proof. by rewrite split_unfold. Qed.

(** A string with the separator has a last and a second-to-last piece. *)
Lemma split_two_pieces s sep :
  contains s sep = true → ∃ cs name last, split s sep = cs ++ [name; last].
Proof.
  intros [r Hr]%after_first_Some. rewrite split_unfold, Hr.
  generalize (before s sep) (split r sep) (split_not_nil r sep).
  intros x l. revert x. induction l as [|y l IH]; intros x Hl; [done|].
  destruct l as [|z l].
  - by exists [], x, y.
  - destruct (IH y) as (cs & name & last & ->); [done|].
    by exists (x :: cs), name, last.
Qed.

Lemma getitem_second_to_last {A} (cs : list A) (name last : A) :
  getitem (cs ++ [name; last]) (-2) = Ok name.
Proof.
  assert ((cs ++ [name; last]) !! length cs = Some name) as Hlookup.
  { rewrite lookup_app_r, Nat.sub_diag by lia. done. }
  unfold getitem. rewrite length_app. simpl length.
  change (-2 <? 0)%Z with true. cbv iota.
  replace (Z.of_nat (length cs + 2) + -2)%Z with (Z.of_nat (length cs)) by lia.
  destruct (Z.ltb_spec (Z.of_nat (length cs)) 0); [lia|].
  destruct (Z.leb_spec (Z.of_nat (length cs + 2)) (Z.of_nat (length cs))); [lia|].
  simpl. by rewrite Nat2Z.id, Hlookup.
Qed.

(** C10: for a path without a slash, [__init__] raises [IndexError],
    whatever the flags are, also flags that the assertions would refuse.
    A path with a slash has a last and a second-to-last piece, and for such
    a path and flags that pass the assertions the command is built with the
    second-to-last piece as its dataset name. *)
Theorem C10_dataset_name_second_to_last (path : string) (requires_manual auto_zip : bool)
    (n_first n_last : Z) :
  (contains path "/" = false →
   __init__ path requires_manual auto_zip n_first n_last = Err IndexError)
  ∧ (contains path "/" = true → ∃ cs name last, split path "/" = cs ++ [name; last])
  ∧ (∀ cs name last,
       split path "/" = cs ++ [name; last] →
       (if auto_zip then n_first ≠ 0%Z ∨ n_last ≠ 0%Z else n_first = 0%Z ∧ n_last = 0%Z) →
       __init__ path requires_manual auto_zip n_first n_last
       = Ok {| _path_to_dataset := path;
               _requires_manual := requires_manual;
               _dataset_name := name;
               _auto_zip := auto_zip;
               _n_first := n_first;
               _n_last := n_last |}).
Proof.
  split; [|split].
  - intros H. unfold __init__. by rewrite (split_no_sep _ _ H).
  - apply split_two_pieces.
  - intros cs name last Hsplit Hflags. unfold __init__.
    rewrite Hsplit, getitem_second_to_last. simpl.
    destruct auto_zip.
    + destruct (Z.eqb_spec n_first 0), (Z.eqb_spec n_last 0); simpl; try done.
      lia.
    + destruct Hflags as [-> ->]. done.
Qed.

(** A bare dataset name is refused before the flags are looked at; a
    script path gives the name of its folder. *)
Lemma C10_witness :
  __init__ "iwslt2017" false true 0 0 = Err IndexError
  ∧ __init__ "datasets/iwslt2017/iwslt2017.py" false false 0 0
    = Ok {| _path_to_dataset := "datasets/iwslt2017/iwslt2017.py";
            _requires_manual := false;
            _dataset_name := "iwslt2017";
            _auto_zip := false;
            _n_first := 0;
            _n_last := 0 |}.
Proof.
  split.
  - destruct (C10_dataset_name_second_to_last "iwslt2017" false true 0 0) as [Hbare _].
    apply Hbare. reflexivity.
  - destruct (C10_dataset_name_second_to_last "datasets/iwslt2017/iwslt2017.py"
                false false 0 0) as (_ & _ & Hname).
    apply (Hname ["datasets"] "iwslt2017" "iwslt2017.py"); [reflexivity|].
    split; reflexivity.
Defined.

End CommandFacts.

(** * Further properties *)

(** ** The line-pair extractor, on every input *)

Section Iwslt2017More.
Import Py Iwslt2017.
Arguments row_step : simpl never.
Local Abbreviation structural := Iwslt2017Builder.structural.
Local Abbreviation no_leading_space := Iwslt2017Builder.no_leading_space.

Lemma generate_loop_ids rows id_ :
  (yielded (generate_loop rows id_)).*1
  = seqZ id_ (Z.of_nat (length (yielded (generate_loop rows id_)))).
Proof.
  revert id_. induction rows as [|[s t] rows IH]; intros id_; simpl; [done|].
  destruct (row_step s t) as [[r|]|e]; simpl; [|done..].
  rewrite seqZ_cons by lia. f_equal. rewrite IH. f_equal. lia.
Qed.

(** X1: whatever the two files hold (plain lines, segment lines, skipped
    lines, a line that raises), the identifiers yielded are 0, 1, 2, ... in
    order, without a gap: as many as there are records. *)
Theorem X1_ids_count_the_records (sf tf : list string) :
  (yielded (_generate_examples sf tf)).*1
  = seqZ 0 (Z.of_nat (length (yielded (_generate_examples sf tf)))).
Proof. apply generate_loop_ids. Qed.

Lemma row_step_structural s t : structural s = true → row_step s t = Ok None.
Proof.
  unfold structural, row_step. intros [H1 H2]%andb_true_iff.
  apply negb_true_iff in H2. by rewrite H1, H2.
Qed.

(** X2: a pair whose stripped source line starts with [<] and not with
    [<seg] is skipped and takes no identifier: the run is the run over the
    other pairs. *)
Theorem X2_structural_rows_are_as_if_absent (sf tf : list string) :
  _generate_examples sf tf
  = generate_loop (filter (λ st, structural st.1 = false) (zip sf tf)) 0.
Proof.
  unfold _generate_examples. generalize (zip sf tf) 0%Z. intros rows.
  induction rows as [|[s t] rows IH]; intros id_; [done|].
  destruct (structural s) eqn:Hs.
  - rewrite filter_cons_False by (simpl; congruence).
    simpl. by rewrite (row_step_structural _ _ Hs).
  - rewrite filter_cons_True by done. simpl.
    destruct (row_step s t) as [[r|]|e]; [by rewrite IH|apply IH|done].
Qed.

(** X3: the lines of the longer file beyond the length of the shorter one
    play no part: the run is the run over both files cut to the shorter
    length, and it yields at most that many records. *)
Theorem X3_longer_file_is_cut (sf tf : list string) :
  _generate_examples sf tf
  = _generate_examples (take (length sf `min` length tf) sf)
      (take (length sf `min` length tf) tf)
  ∧ length (yielded (_generate_examples sf tf)) ≤ length sf `min` length tf.
Proof.
  split.
  - unfold _generate_examples. f_equal. symmetry.
    apply zip_with_take_both'; lia.
  - unfold _generate_examples. rewrite <- (length_zip_with pair sf tf).
    generalize (zip sf tf) 0%Z. intros rows.
    induction rows as [|[s t] rows IH]; intros id_; simpl; [lia|].
    destruct (row_step s t) as [[r|]|e]; simpl.
    + specialize (IH (id_ + 1)%Z). lia.
    + specialize (IH id_). lia.
    + lia.
Qed.

Lemma lstrip_no_leading_space s : no_leading_space (lstrip s).
Proof.
  induction s as [|c r IH]; simpl; [done|].
  destruct (isspace c) eqn:E; [done|]. by simpl.
Qed.

Lemma lstrip_id s : no_leading_space s → lstrip s = s.
Proof. destruct s as [|c r]; simpl; [done|]. by intros ->. Qed.

Lemma rstrip_no_leading_space s : no_leading_space s → no_leading_space (rstrip s).
Proof.
  destruct s as [|c r]; simpl; [done|]. intros Hc. rewrite Hc.
  by destruct (rstrip r).
Qed.

Lemma rstrip_idempotent s : rstrip (rstrip s) = rstrip s.
Proof.
  induction s as [|c r IH]; simpl; [done|].
  destruct (rstrip r) as [|c' r'] eqn:E.
  - destruct (isspace c) eqn:Ec; simpl; [done|]. by rewrite Ec.
  - simpl in *. by rewrite IH.
Qed.

(** [strip] leaves a stripped string as it is. *)
Lemma strip_idempotent s : strip (strip s) = strip s.
Proof.
  unfold strip.
  rewrite (lstrip_id (rstrip (lstrip s)))
    by apply rstrip_no_leading_space, lstrip_no_leading_space.
  apply rstrip_idempotent.
Qed.

Lemma row_step_stripped s t r :
  row_step s t = Ok (Some r) → strip (source r) = source r ∧ strip (target r) = target r.
Proof.
  unfold row_step.
  destruct (startswith (strip s) "<").
  - destruct (startswith (strip s) "<seg"); [|done].
    destruct (getitem (split (strip s) ">") 1); simpl; [|done].
    destruct (getitem (split _ "<") 0); simpl; [|done].
    destruct (getitem (split (strip t) ">") 1); simpl; [|done].
    destruct (getitem (split _ "<") 0); simpl; [|done].
    intros [= <-]. simpl. by rewrite !strip_idempotent.
  - intros [= <-]. simpl. by rewrite !strip_idempotent.
Qed.

(** X4: every record yielded, from a plain pair or from a segment pair, has
    a source and a target text without surrounding blanks: stripping them
    again changes nothing. *)
Theorem X4_yielded_texts_are_stripped (sf tf : list string) :
  Forall (λ ir, strip (source ir.2) = source ir.2 ∧ strip (target ir.2) = target ir.2)
    (yielded (_generate_examples sf tf)).
Proof.
  unfold _generate_examples. generalize (zip sf tf) 0%Z. intros rows.
  induction rows as [|[s t] rows IH]; intros id_; simpl; [constructor|].
  destruct (row_step s t) as [[r|]|e] eqn:E; simpl; [|apply IH|constructor].
  constructor; [|apply IH]. simpl. by eapply row_step_stripped.
Qed.

(** X5: rows processed after rows that ended without an error take up the
    identifiers where these stopped, and their records follow; rows after
    rows that raised are never looked at, and the records yielded before the
    error stay. *)
Theorem X5_runs_compose (rows1 rows2 : list (string * string)) (id_ : Z) :
  (raised (generate_loop rows1 id_) = None →
   generate_loop (rows1 ++ rows2) id_
   = {| yielded :=
          yielded (generate_loop rows1 id_)
          ++ yielded (generate_loop rows2
                        (id_ + Z.of_nat (length (yielded (generate_loop rows1 id_)))));
        raised :=
          raised (generate_loop rows2
                    (id_ + Z.of_nat (length (yielded (generate_loop rows1 id_))))) |})
  ∧ (raised (generate_loop rows1 id_) ≠ None →
     generate_loop (rows1 ++ rows2) id_ = generate_loop rows1 id_).
Proof.
  revert id_. induction rows1 as [|[s t] rows1 IH]; intros id_.
  - simpl. split; [|done]. intros _. rewrite Z.add_0_r.
    by destruct (generate_loop rows2 id_).
  - cbn [app generate_loop].
    destruct (row_step s t) as [[r|]|e]; cbn [yielded raised length].
    + destruct (IH (id_ + 1)%Z) as [IH1 IH2]. split.
      * intros H. rewrite (IH1 H). cbn [yielded raised app].
        by replace (id_ + Z.of_nat (S (length (yielded (generate_loop rows1 (id_ + 1))))))%Z
          with (id_ + 1 + Z.of_nat (length (yielded (generate_loop rows1 (id_ + 1)))))%Z
          by lia.
      * intros H. by rewrite (IH2 H).
    + apply IH.
    + split; [done|]. done.
Qed.

(** Two plain rows, then a segment row without its [>], then a plain row:
    the first two records stay and the last row is not read. *)
Lemma X5_witness :
  generate_loop ([("a", "b"); ("c", "d")] ++ [("<seg id=1", "x"); ("e", "f")]) 0
  = {| yielded := [(0%Z, {| source := "a"; target := "b" |});
                   (1%Z, {| source := "c"; target := "d" |})];
       raised := Some IndexError |}
  ∧ generate_loop ([("<seg id=1", "x")] ++ [("e", "f")]) 0
    = {| yielded := []; raised := Some IndexError |}.
Proof.
  split.
  - destruct (X5_runs_compose [("a", "b"); ("c", "d")] [("<seg id=1", "x"); ("e", "f")] 0)
      as [Hok _].
    rewrite Hok; reflexivity.
  - destruct (X5_runs_compose [("<seg id=1", "x")] [("e", "f")] 0) as [_ Herr].
    rewrite Herr; [reflexivity|discriminate].
Defined.

End Iwslt2017More.

(** ** The configurations and the splits of the loader *)

Section Iwslt2017BuilderFacts.
Import Py.
Local Abbreviation LANGUAGES := Iwslt2017Builder.LANGUAGES.
Local Abbreviation PAIRS := Iwslt2017Builder.PAIRS.
Local Abbreviation BUILDER_CONFIGS := Iwslt2017Builder.BUILDER_CONFIGS.
Local Abbreviation unpack2 := Iwslt2017Builder.unpack2.
Local Abbreviation _split_generators := Iwslt2017Builder._split_generators.
Local Abbreviation files_of := Iwslt2017Builder.files_of.

Lemma append_cons c a b : String c a +:+ b = String c (a +:+ b).
Proof. reflexivity. Qed.

Lemma append_assoc a b c : (a +:+ b) +:+ c = a +:+ b +:+ c.
Proof. induction a as [|x a IH]; [done|]. by rewrite !append_cons, IH. Qed.

Lemma contains_append a b c : contains (a +:+ b) c = contains a c || contains b c.
Proof.
  induction a as [|x a IH]; [done|].
  rewrite append_cons. simpl. by destruct (decide (x = c)).
Qed.

Lemma length_append a b :
  String.length (a +:+ b) = String.length a + String.length b.
Proof. induction a as [|x a IH]; [done|]. rewrite append_cons. simpl. by rewrite IH. Qed.

(** A common suffix cancels. *)
Lemma append_inv_r a b s : a +:+ s = b +:+ s → a = b.
Proof.
  revert b. induction a as [|x a IH]; intros [|y b] H.
  - done.
  - apply (f_equal String.length) in H.
    rewrite !length_append in H. simpl in H. lia.
  - apply (f_equal String.length) in H.
    rewrite !length_append in H. simpl in H. lia.
  - rewrite !append_cons in H. injection H as -> H. f_equal. by apply IH.
Qed.

(** The first piece of a string is what precedes its first separator. *)
Lemma split_append a b sep :
  contains a sep = false → split (a +:+ String sep b) sep = a :: split b sep.
Proof.
  induction a as [|x a IH]; simpl.
  - intros _. change ("" +:+ String sep b) with (String sep b). simpl.
    by rewrite decide_True.
  - destruct (decide (x = sep)); [done|]. intros H.
    rewrite ?append_cons. simpl. rewrite ?decide_False by done. by rewrite IH.
Qed.

(** [f"{a}-{b}".split("-")] gives back [a] and [b] when they hold no
    hyphen. *)
Lemma unpack_format a b :
  contains a "-" = false → contains b "-" = false →
  unpack2 (split (a +:+ "-" +:+ b) "-") = inr (a, b).
Proof.
  intros Ha Hb. change ("-" +:+ b) with (String "-" b).
  by rewrite (split_append _ _ _ Ha), (split_no_sep _ _ Hb).
Qed.

Lemma elem_of_PAIRS p :
  p ∈ PAIRS ↔ ∃ a b, a ∈ LANGUAGES ∧ b ∈ LANGUAGES ∧ a ≠ b ∧ p = a +:+ "-" +:+ b.
Proof.
  unfold Iwslt2017Builder.PAIRS, Iwslt2017Builder.pairs_of. split.
  - intros (a & Hp & Ha)%list_elem_of_bind.
    apply list_elem_of_bind in Hp as (b & Hp & Hb).
    destruct (decide (a ≠ b)); [|by apply elem_of_nil in Hp].
    apply list_elem_of_singleton in Hp. by exists a, b.
  - intros (a & b & Ha & Hb & Hab & ->).
    apply list_elem_of_bind. exists a. split; [|done].
    apply list_elem_of_bind. exists b. split; [|done].
    rewrite decide_True by done. by apply list_elem_of_singleton.
Qed.

Lemma LANGUAGES_plain :
  Forall (λ l, contains l "-" = false ∧ contains l "/" = false) LANGUAGES.
Proof. repeat constructor. Qed.

(** X6: the loader declares twenty configurations with distinct names, one
    for each ordered pair of two different languages of [LANGUAGES]; the name
    is [iwslt2017_] followed by the pair, and the pair of every declared
    configuration unpacks into its source and its target language, so that
    the unpacking in [_split_generators] does not raise for them. *)
Theorem X6_declared_pairs_unpack :
  length BUILDER_CONFIGS = 20
  ∧ NoDup (Iwslt2017Builder.config_name <$> BUILDER_CONFIGS)
  ∧ (∀ a b, a ∈ LANGUAGES → b ∈ LANGUAGES → a ≠ b →
       {| Iwslt2017Builder.config_name := "iwslt2017_" +:+ a +:+ "-" +:+ b;
          Iwslt2017Builder.config_description := "A small dataset";
          Iwslt2017Builder.config_pair := a +:+ "-" +:+ b |} ∈ BUILDER_CONFIGS)
  ∧ Forall (λ c, ∃ a b,
              a ∈ LANGUAGES ∧ b ∈ LANGUAGES ∧ a ≠ b
              ∧ Iwslt2017Builder.config_pair c = a +:+ "-" +:+ b
              ∧ Iwslt2017Builder.config_name c = "iwslt2017_" +:+ a +:+ "-" +:+ b
              ∧ unpack2 (split (Iwslt2017Builder.config_pair c) "-") = inr (a, b))
      BUILDER_CONFIGS.
Proof.
  split; [reflexivity|]. split; [compute_done|]. split.
  - intros a b Ha Hb Hab. unfold Iwslt2017Builder.BUILDER_CONFIGS.
    apply list_elem_of_fmap. exists (a +:+ "-" +:+ b). split; [done|].
    apply elem_of_PAIRS. by exists a, b.
  - unfold Iwslt2017Builder.BUILDER_CONFIGS. apply Forall_fmap, Forall_forall.
    intros p (a & b & Ha & Hb & Hab & ->)%elem_of_PAIRS. simpl.
    exists a, b. repeat (split; [done|]).
    pose proof LANGUAGES_plain as Hplain. rewrite Forall_forall in Hplain.
    apply unpack_format; by apply Hplain.
Qed.

(** German to English is declared, under the name [iwslt2017_de-en]. *)
Lemma X6_witness :
  {| Iwslt2017Builder.config_name := "iwslt2017_de-en";
     Iwslt2017Builder.config_description := "A small dataset";
     Iwslt2017Builder.config_pair := "de-en" |} ∈ BUILDER_CONFIGS.
Proof.
  destruct X6_declared_pairs_unpack as (_ & _ & Hdeclared & _).
  apply (Hdeclared "de" "en"); [compute_done..|discriminate].
Defined.

Lemma unpack_too_many a rest :
  contains a "-" = false → contains rest "-" = true →
  unpack2 (split (a +:+ "-" +:+ rest) "-") = inl Iwslt2017Builder.too_many_values_to_unpack.
Proof.
  intros Ha Hrest. change ("-" +:+ rest) with (String "-" rest).
  rewrite (split_append _ _ _ Ha).
  destruct (split_two_pieces _ _ Hrest) as (cs & name & last & ->).
  by destruct cs as [|? [|? ?]].
Qed.

(** X7: for a pair without a hyphen [_split_generators] raises at the
    unpacking, with one value for two names, and for a pair with two hyphens
    or more it raises with too many values; no split is returned. *)
Theorem X7_malformed_pair_raises (TRAIN TEST VALIDATION dl_dir pair : string) :
  (contains pair "-" = false →
   _split_generators TRAIN TEST VALIDATION dl_dir pair
   = inl (Iwslt2017Builder.not_enough_values_to_unpack 1))
  ∧ (∀ a rest, pair = a +:+ "-" +:+ rest →
       contains a "-" = false → contains rest "-" = true →
       _split_generators TRAIN TEST VALIDATION dl_dir pair
       = inl Iwslt2017Builder.too_many_values_to_unpack).
Proof.
  split.
  - intros H. unfold Iwslt2017Builder._split_generators.
    by rewrite (split_no_sep _ _ H).
  - intros a rest -> Ha Hrest. unfold Iwslt2017Builder._split_generators.
    by rewrite (unpack_too_many _ _ Ha Hrest).
Qed.

Lemma X7_witness :
  _split_generators "train" "test" "validation" "cache" "deen"
  = inl (Iwslt2017Builder.not_enough_values_to_unpack 1)
  ∧ _split_generators "train" "test" "validation" "cache" "de-en-it"
    = inl Iwslt2017Builder.too_many_values_to_unpack.
Proof.
  split.
  - destruct (X7_malformed_pair_raises "train" "test" "validation" "cache" "deen")
      as [Hnone _].
    apply Hnone. reflexivity.
  - destruct (X7_malformed_pair_raises "train" "test" "validation" "cache" "de-en-it")
      as [_ Hmany].
    apply (Hmany "de" "en-it"); reflexivity.
Defined.

Lemma basename_no_slash name : contains name "/" = false → basename name = name.
Proof.
  destruct name as [|c r]; simpl; [done|].
  destruct (decide (c = "/"%char)); [done|]. by intros ->.
Qed.

Lemma basename_append_slash d name :
  contains name "/" = false → basename (d +:+ String "/" name) = name.
Proof.
  intros H. induction d as [|c d IH].
  - change ("" +:+ String "/" name) with (String "/" name). simpl. by rewrite H.
  - rewrite append_cons. simpl. rewrite contains_append. simpl.
    by rewrite orb_true_r.
Qed.

Lemma endswith_inv d c : endswith d c = true → ∃ d0, d = d0 +:+ String c "".
Proof.
  induction d as [|x d IH]; simpl; [done|].
  destruct d as [|y d].
  - intros ->%bool_decide_eq_true. by exists "".
  - intros [d0 ->]%IH. by exists (String x d0).
Qed.

(** The base name of a path joined with a name without a slash is the
    name. *)
Lemma basename_path_join d name :
  contains name "/" = false → basename (path_join d name) = name.
Proof.
  intros H. unfold path_join.
  destruct (startswith name "/") eqn:Hstart.
  { destruct name as [|c r]; simpl in *; [done|].
    by destruct (decide ("/"%char = c)) as [<-|]. }
  destruct (bool_decide (d = "")) eqn:Hd; simpl.
  { apply bool_decide_eq_true in Hd as ->. by apply basename_no_slash. }
  destruct (endswith d "/") eqn:Hend.
  - apply endswith_inv in Hend as [d0 ->].
    rewrite append_assoc. by apply basename_append_slash.
  - change ("/" +:+ name) with (String "/" name). by apply basename_append_slash.
Qed.

(** Two names that differ within their first [n] characters differ. *)
Local Ltac differ_within n :=
  let H := fresh in
  intros H; apply (f_equal (String.substring 0 n)) in H; vm_compute in H; discriminate H.

(** The six file names of a pair of two different languages are distinct. *)
Lemma split_file_names_NoDup pair a b :
  a ≠ b →
  NoDup [ "train.tags." +:+ pair +:+ "." +:+ a;
          "train.tags." +:+ pair +:+ "." +:+ b;
          "IWSLT17.TED.tst2010." +:+ pair +:+ "." +:+ a +:+ ".xml";
          "IWSLT17.TED.tst2010." +:+ pair +:+ "." +:+ b +:+ ".xml";
          "IWSLT17.TED.dev2010." +:+ pair +:+ "." +:+ a +:+ ".xml";
          "IWSLT17.TED.dev2010." +:+ pair +:+ "." +:+ b +:+ ".xml" ].
Proof.
  intros Hab.
  assert (∀ prefix, prefix +:+ pair +:+ "." +:+ a ≠ prefix +:+ pair +:+ "." +:+ b)
    as Hplain.
  { intros prefix H. by do 3 apply (inj (String.app _)) in H. }
  assert (∀ prefix, prefix +:+ pair +:+ "." +:+ a +:+ ".xml"
                    ≠ prefix +:+ pair +:+ "." +:+ b +:+ ".xml") as Hxml.
  { intros prefix H. do 3 apply (inj (String.app _)) in H.
    by apply append_inv_r in H. }
  repeat (apply NoDup_cons; split;
          [rewrite ?elem_of_cons, elem_of_nil;
           intros H; repeat destruct H as [H|H]; try done; revert H;
           first [apply Hplain | apply Hxml
                 | intros H; symmetry in H; revert H; first [apply Hplain | apply Hxml]
                 | differ_within 1 | differ_within 13]|]).
  apply NoDup_nil_2.
Qed.

(** X8: for a pair of two different languages, written without hyphen and
    without slash, [_split_generators] returns the train, test and
    validation splits in this order, and the six files they name lie in the
    same folder under distinct base names: matching files by base name, as
    [auto_zip] does, cannot confuse them. *)
Theorem X8_split_files_have_distinct_base_names
    (TRAIN TEST VALIDATION dl_dir a b : string) :
  contains a "-" = false → contains b "-" = false →
  contains a "/" = false → contains b "/" = false →
  a ≠ b →
  ∃ splits,
    _split_generators TRAIN TEST VALIDATION dl_dir (a +:+ "-" +:+ b) = inr splits
    ∧ Iwslt2017Builder.split_generator_name <$> splits = [TRAIN; TEST; VALIDATION]
    ∧ Iwslt2017Builder.split <$> splits = ["train"; "test"; "dev"]
    ∧ length (files_of splits) = 6
    ∧ NoDup (basename <$> files_of splits).
Proof.
  intros Ha Hb Ha' Hb' Hab.
  unfold Iwslt2017Builder._split_generators. rewrite (unpack_format _ _ Ha Hb).
  eexists. split; [reflexivity|]. repeat (split; [reflexivity|]).
  unfold Iwslt2017Builder.files_of. simpl.
  rewrite !basename_path_join; [by apply split_file_names_NoDup|..];
    rewrite !contains_append, ?Ha', ?Hb'; reflexivity.
Qed.

Lemma X8_witness :
  ∃ splits,
    _split_generators "train" "test" "validation" "cache/extracted" "de-en" = inr splits
    ∧ basename <$> files_of splits
      = ["train.tags.de-en.de"; "train.tags.de-en.en";
         "IWSLT17.TED.tst2010.de-en.de.xml"; "IWSLT17.TED.tst2010.de-en.en.xml";
         "IWSLT17.TED.dev2010.de-en.de.xml"; "IWSLT17.TED.dev2010.de-en.en.xml"].
Proof.
  destruct (X8_split_files_have_distinct_base_names "train" "test" "validation"
              "cache/extracted" "de" "en")
    as (splits & Hsplits & _); [reflexivity..|discriminate|].
  exists splits. split; [exact Hsplits|].
  injection Hsplits as <-. reflexivity.
Defined.

End Iwslt2017BuilderFacts.


(** ** The file-touch recorder, on every builder *)

Section GetFilesMore.
Import Py DummyData DummyDataRuns.

Lemma alter_alter {A} (f g : A → A) (i : nat) (l : list A) :
  alter f i (alter g i l) = alter (f ∘ g) i l.
Proof. revert i. induction l as [|x l IH]; intros [|i]; f_equal/=; auto. Qed.

Lemma record_opens_nil k w : record_opens k [] w = w.
Proof.
  destruct w. unfold record_opens, set_lists. simpl. f_equal.
  apply list_alter_id. intros l. apply app_nil_r.
Qed.

Lemma record_opens_app k xs ys w :
  record_opens k ys (record_opens k xs w) = record_opens k (xs ++ ys) w.
Proof.
  unfold record_opens, set_lists. simpl. f_equal.
  rewrite alter_alter. apply list_alter_ext; [|done].
  intros l _. simpl. by rewrite app_assoc.
Qed.

Lemma blocked_app mock files l1 l2 :
  blocked mock files (l1 ++ l2)
  = match blocked mock files l1 with
    | Some p => Some p
    | None => blocked mock files l2
    end.
Proof.
  destruct mock; [done|]. simpl.
  induction l1 as [|p l1 IH]; simpl; [done|]. by destruct (readable files p).
Qed.

Lemma opened_app mock files l1 l2 :
  opened mock files (l1 ++ l2)
  = match blocked mock files l1 with
    | Some _ => opened mock files l1
    | None => l1 ++ opened mock files l2
    end.
Proof.
  destruct mock; [done|]. simpl.
  induction l1 as [|p l1 IH]; simpl; [done|].
  destruct (readable files p); [|done]. rewrite IH.
  by destruct (first_unreadable files l1).
Qed.

Lemma opened_all mock files l : blocked mock files l = None → opened mock files l = l.
Proof.
  intros H. pose proof (opened_app mock files l []) as Happ.
  rewrite H, app_nil_r in Happ. rewrite Happ.
  destruct mock; simpl; by rewrite app_nil_r.
Qed.

Lemma opened_single mock files p : opened mock files [p] = [p].
Proof. destruct mock; simpl; [done|]. by destruct (readable files p). Qed.

Lemma call_open_patch depth k mock path m w :
  call_open (S depth) (monkey_patch_open k mock) path m w
  = if mock then (record_opens k [path] w, Ok temp_handle)
    else match builtins__open w with
         | Some fn => call_open depth fn path m (record_opens k [path] w)
         | None => (record_opens k [path] w, Err (AttributeError "_open"))
         end.
Proof. reflexivity. Qed.

Lemma call_open_io depth path m w :
  call_open (S depth) io_open path m w = io_open_impl path m w.
Proof. reflexivity. Qed.

Lemma recursion_limit_two : recursion_limit = S (S 998).
Proof. reflexivity. Qed.

(** What a patched [open] does: the path is recorded; in mock mode a
    temporary file is handed out, otherwise the interpreter's own [open]
    answers. *)
Lemma py_open_patched k mock path m w :
  builtins_open w = monkey_patch_open k mock →
  (mock = false → builtins__open w = Some io_open ∧ m = mode_r) →
  py_open path m w
  = (record_opens k [path] w,
     match blocked mock (fs w) [path] with
     | Some p => Err (FileNotFoundError p)
     | None => Ok (if mock then temp_handle else file_handle path)
     end).
Proof.
  intros Hopen Hreal. unfold py_open.
  rewrite Hopen, recursion_limit_two, call_open_patch.
  destruct mock; [done|].
  destruct Hreal as [Hold ->]; [done|].
  rewrite Hold, call_open_io.
  unfold io_open_impl, blocked. cbn [first_unreadable fs record_opens set_lists].
  unfold readable. by destruct (fs w !! path) as [[]|].
Qed.

(** A builder method under a patched [open]. *)
Lemma run_script_patched {A} (s : script A) k mock w :
  builtins_open w = monkey_patch_open k mock →
  (mock = false →
   builtins__open w = Some io_open ∧ Forall (λ pm, pm.2 = mode_r) (script_opens s)) →
  run_script s w
  = (record_opens k (opened mock (fs w) (script_opens s).*1) w,
     match blocked mock (fs w) (script_opens s).*1 with
     | Some p => Err (FileNotFoundError p)
     | None => script_end s
     end).
Proof.
  revert w. induction s as [a|e|path m s IH|s IH]; intros w Hopen Hreal.
  - simpl. destruct mock; simpl; by rewrite record_opens_nil.
  - simpl. destruct mock; simpl; by rewrite record_opens_nil.
  - cbn [run_script script_opens script_end fmap list_fmap]. unfold bind.
    assert (mock = false → builtins__open w = Some io_open ∧ m = mode_r
                         ∧ Forall (λ pm, pm.2 = mode_r) (script_opens s)) as Hreal'.
    { intros Hm. destruct (Hreal Hm) as [Hold Hall]. by inversion Hall. }
    rewrite (py_open_patched k mock path m w Hopen) by
      (intros Hm; by destruct (Hreal' Hm) as (? & ? & _)).
    change ((path, m).1 :: (script_opens s).*1) with ([path] ++ (script_opens s).*1).
    rewrite blocked_app, opened_app.
    destruct (blocked mock (fs w) [path]) as [p|] eqn:Hb;
      [by rewrite opened_single|].
    rewrite IH; [by rewrite record_opens_app|done|].
    intros Hm. by destruct (Hreal' Hm) as (? & _ & ?).
  - simpl. by apply IH.
Qed.

Lemma drive_splits_patched b splits k mock w :
  builtins_open w = monkey_patch_open k mock →
  (mock = false →
   builtins__open w = Some io_open ∧ Forall (λ pm, pm.2 = mode_r) (drive_opens b splits)) →
  drive_splits b splits w
  = (record_opens k (opened mock (fs w) (drive_opens b splits).*1) w,
     match blocked mock (fs w) (drive_opens b splits).*1 with
     | Some p => Err (FileNotFoundError p)
     | None => drive_end b splits
     end).
Proof.
  revert w. induction splits as [|split splits IH]; intros w Hopen Hreal.
  - simpl. destruct mock; simpl; by rewrite record_opens_nil.
  - cbn [drive_splits drive_opens drive_end]. unfold bind.
    assert (mock = false →
            builtins__open w = Some io_open
            ∧ Forall (λ pm, pm.2 = mode_r)
                (script_opens (_generate_examples b (gen_kwargs split)))
            ∧ (∀ u, script_end (_generate_examples b (gen_kwargs split)) = Ok u →
                 Forall (λ pm, pm.2 = mode_r) (drive_opens b splits))) as Hreal'.
    { intros Hm. destruct (Hreal Hm) as [Hold Hall].
      apply Forall_app in Hall as [Hall1 Hall2]. repeat split; [done..|].
      intros u Hu. by rewrite Hu in Hall2. }
    rewrite (run_script_patched _ k mock w Hopen) by
      (intros Hm; by destruct (Hreal' Hm) as (? & ? & _)).
    rewrite fmap_app, blocked_app, opened_app.
    destruct (blocked mock (fs w) (script_opens _).*1) as [p|] eqn:Hb; [done|].
    destruct (script_end (_generate_examples b (gen_kwargs split))) as [[]|e] eqn:He.
    + rewrite IH; [by rewrite record_opens_app, (opened_all _ _ _ Hb)|done|].
      intros Hm. destruct (Hreal' Hm) as (? & _ & Hrest). split; [done|].
      by apply (Hrest tt).
    + change ([].*1) with (@nil string).
      replace (blocked mock (fs w) []) with (@None string) by by destruct mock.
      replace (opened mock (fs w) []) with (@nil string) by by destruct mock.
      by rewrite app_nil_r, (opened_all _ _ _ Hb).
Qed.

Lemma alter_last {A} (f : A → A) (l : list A) (x : A) :
  alter f (length l) (l ++ [x]) = l ++ [f x].
Proof.
  replace (length l) with (length l + 0) by lia. by rewrite alter_app_r.
Qed.

(** [get_files] in full: its result, and the state it leaves. In real mode
    this is for the interpreter's own [open] and a builder that opens files
    for reading only. *)
Lemma record_opens_fresh w o o' X :
  record_opens (length (lists w)) X
    (World (fs w) (dirs w) o o' (lists w ++ [[]]) (stdout w))
  = World (fs w) (dirs w) o o' (lists w ++ [X]) (stdout w).
Proof. unfold record_opens, set_lists. simpl. f_equal. by rewrite alter_last. Qed.

Lemma record_opens_fresh_app w o o' X Y :
  record_opens (length (lists w)) Y
    (World (fs w) (dirs w) o o' (lists w ++ [X]) (stdout w))
  = World (fs w) (dirs w) o o' (lists w ++ [X ++ Y]) (stdout w).
Proof. unfold record_opens, set_lists. simpl. f_equal. by rewrite alter_last. Qed.

Lemma blocked_nil mock files : blocked mock files [] = None.
Proof. by destruct mock. Qed.

Lemma opened_nil mock files : opened mock files [] = [].
Proof. by destruct mock. Qed.

(** [get_files] in full: its result, and the state it leaves. In real mode
    this is for the interpreter's own [open] and a builder that opens files
    for reading only. *)
Lemma get_files_patched b dl mock w :
  (mock = false →
   builtins_open w = io_open ∧ Forall (λ pm, pm.2 = mode_r) (builder_opens b dl)) →
  get_files b dl mock w
  = (World (fs w) (dirs w)
       (match recorded mock (fs w) b dl with
        | Ok _ => builtins_open w
        | Err _ => monkey_patch_open (length (lists w)) mock
        end)
       (Some (builtins_open w))
       (lists w ++ [opened mock (fs w) (builder_opens b dl).*1])
       (stdout w),
     recorded mock (fs w) b dl).
Proof.
  intros Hreal.
  assert (mock = false →
          Some (builtins_open w) = Some io_open
          ∧ Forall (λ pm, pm.2 = mode_r) (script_opens (_split_generators b dl))
          ∧ (∀ splits, script_end (_split_generators b dl) = Ok splits →
               Forall (λ pm, pm.2 = mode_r) (drive_opens b splits))) as Hreal'.
  { intros Hm. destruct (Hreal Hm) as [-> Hall]. unfold builder_opens in Hall.
    apply Forall_app in Hall as [Hall1 Hall2]. repeat split; [done..|].
    intros splits Hs. by rewrite Hs in Hall2. }
  unfold get_files, recorded, builder_opens, builder_end.
  unfold bind at 1. cbn beta iota.
  unfold bind at 1, modify at 1. cbn beta iota.
  unfold bind at 1, modify at 1. cbn beta iota.
  unfold bind at 1.
  set (k := length (lists w)).
  change (set_builtins_open _ _)
    with (World (fs w) (dirs w) (monkey_patch_open k mock) (Some (builtins_open w))
            (lists w ++ [[]]) (stdout w)).
  rewrite (run_script_patched _ k mock) by
    (first [reflexivity | intros Hm; by destruct (Hreal' Hm) as (? & ? & _)]).
  cbn [fs]. subst k. rewrite record_opens_fresh.
  rewrite fmap_app, blocked_app, opened_app.
  destruct (blocked mock (fs w) (script_opens _).*1) as [p|] eqn:Hb; [done|].
  rewrite (opened_all _ _ _ Hb).
  destruct (script_end (_split_generators b dl)) as [splits|e] eqn:He; cbn [rbind].
  - unfold bind at 1.
    rewrite (drive_splits_patched _ _ (length (lists w)) mock) by
      (first [reflexivity
             | intros Hm; destruct (Hreal' Hm) as (? & _ & Hd);
               split; [done|]; by apply Hd]).
    cbn [fs]. rewrite record_opens_fresh_app.
    destruct (blocked mock (fs w) (drive_opens b splits).*1) as [p|] eqn:Hb2; [done|].
    rewrite (opened_all _ _ _ Hb2).
    destruct (drive_end b splits) as [[]|e] eqn:Hd; cbn [rbind]; [|done].
    unfold bind at 1, get_builtins__open. cbn [builtins__open].
    unfold bind, modify. cbn [lists set_builtins_open].
    by rewrite list_lookup_middle by done.
  - change ([].*1) with (@nil string).
    by rewrite blocked_nil, opened_nil, app_nil_r.
Qed.

(** X9: a mock run of a builder that calls [open] with a path and at most
    a mode, which is what [s_open] stands for. When the builder ends without
    an error of its own, the result is the list of the paths it asked to
    open, in the order of the calls and with repeated paths kept, whether
    the files exist or not; otherwise [get_files] ends with the error of the
    builder. *)
Theorem X9_mock_run_records_each_open (b : builder) (dl : dl_manager) (w : world) :
  (get_files b dl true w).2
  = rbind (builder_end b dl) (λ _, Ok (builder_opens b dl).*1).
Proof. by rewrite get_files_patched. Qed.

(** X10: a mock run, whatever the builder does and however it ends, leaves
    the files, the directories and the output as they were; it adds one list
    to the heap, with the paths asked for, and leaves what was
    [builtins.open] before the call in [builtins._open]. *)
Theorem X10_mock_run_touches_no_file (b : builder) (dl : dl_manager) (w : world) :
  fs (get_files b dl true w).1 = fs w
  ∧ dirs (get_files b dl true w).1 = dirs w
  ∧ stdout (get_files b dl true w).1 = stdout w
  ∧ lists (get_files b dl true w).1 = lists w ++ [(builder_opens b dl).*1]
  ∧ builtins__open (get_files b dl true w).1 = Some (builtins_open w).
Proof. by rewrite get_files_patched. Qed.

(** The interpreter's own [open], for reading. *)
Lemma io_open_impl_read path w :
  io_open_impl path mode_r w
  = (w, if readable (fs w) path then Ok (file_handle path)
        else Err (FileNotFoundError path)).
Proof. unfold io_open_impl, readable. by destruct (fs w !! path) as [[]|]. Qed.

Lemma first_unreadable_split files pre p post :
  Forall (λ q, readable files q = true) pre → readable files p = false →
  first_unreadable files (pre ++ p :: post) = Some p
  ∧ opened_until files (pre ++ p :: post) = pre ++ [p].
Proof.
  induction 1 as [|q pre Hq _ IH]; intros Hp; simpl; [by rewrite Hp|].
  rewrite Hq. by destruct (IH Hp) as [-> ->].
Qed.

Lemma first_unreadable_none files paths :
  Forall (λ q, readable files q = true) paths →
  first_unreadable files paths = None.
Proof. induction 1 as [|q paths Hq _ IH]; simpl; [done|]. by rewrite Hq. Qed.

Lemma io_open_impl_readable w paths :
  Forall (λ q, io_open_impl q mode_r w = (w, Ok (file_handle q))) paths →
  Forall (λ q, readable (fs w) q = true) paths.
Proof.
  intros H. eapply Forall_impl; [exact H|].
  intros q Hq. cbv beta in Hq. rewrite io_open_impl_read in Hq.
  by destruct (readable (fs w) q).
Qed.

(** X11: a real run, started with the interpreter's own [open], of a
    builder that opens files for reading only and lets the errors of [open]
    through, as scripts do. The run stops at the first
    [open] that the interpreter's own [open] refuses: [get_files] ends with
    the error of that [open], and the list of the call holds the paths asked
    for up to that one, it included. When no [open] is refused, the run
    returns the paths asked for, in the order of the calls, or ends with the
    error of the builder. The files are left as they were. *)
Theorem X11_real_run_stops_at_the_first_refused_open (b : builder) (dl : dl_manager)
    (w : world) :
  builtins_open w = io_open →
  Forall (λ pm, pm.2 = mode_r) (builder_opens b dl) →
  (∀ pre p post e,
     (builder_opens b dl).*1 = pre ++ p :: post →
     Forall (λ q, io_open_impl q mode_r w = (w, Ok (file_handle q))) pre →
     io_open_impl p mode_r w = (w, Err e) →
     (get_files b dl false w).2 = Err e
     ∧ lists (get_files b dl false w).1 = lists w ++ [pre ++ [p]])
  ∧ (Forall (λ q, io_open_impl q mode_r w = (w, Ok (file_handle q)))
       (builder_opens b dl).*1 →
     (get_files b dl false w).2
     = rbind (builder_end b dl) (λ _, Ok (builder_opens b dl).*1))
  ∧ fs (get_files b dl false w).1 = fs w.
Proof.
  intros Hio Hall.
  rewrite (get_files_patched b dl false) by done.
  unfold recorded. cbn [blocked opened fst snd lists fs].
  split; [|split; [|done]].
  - intros pre p post e Hsplit Hpre%io_open_impl_readable Hp.
    rewrite io_open_impl_read in Hp.
    destruct (readable (fs w) p) eqn:Hr; [done|]. injection Hp as <-.
    destruct (first_unreadable_split (fs w) pre p post Hpre Hr) as [H1 H2].
    by rewrite Hsplit, H1, H2.
  - intros Hgood%io_open_impl_readable.
    by rewrite first_unreadable_none.
Qed.

(** The train file is there and the labels file is not: the run stops at
    the second [open]. *)
Lemma X11_witness :
  (get_files two_split_builder (DownloadManager "sample") false world_ten).2
  = Err (FileNotFoundError "real/labels.txt")
  ∧ lists (get_files two_split_builder (DownloadManager "sample") false world_ten).1
    = [["real/train.txt"; "real/labels.txt"]].
Proof.
  destruct (X11_real_run_stops_at_the_first_refused_open two_split_builder
              (DownloadManager "sample") world_ten) as [Hstop _].
  - reflexivity.
  - repeat constructor.
  - apply (Hstop ["real/train.txt"] "real/labels.txt"
             ["real/train.txt"; "real/labels.txt"]
             (FileNotFoundError "real/labels.txt")).
    + reflexivity.
    + repeat constructor.
    + reflexivity.
Defined.

(** X12: whenever [get_files] returns, in mock or in real mode and whatever
    [builtins.open] was, [builtins.open] is again what it was before the
    call. *)
Theorem X12_open_is_restored_on_return (b : builder) (dl : dl_manager) (mock : bool)
    (w w' : world) (files : list string) :
  get_files b dl mock w = (w', Ok files) → builtins_open w' = builtins_open w.
Proof. apply get_files_restores_on_return. Qed.

Lemma X12_witness :
  builtins_open (get_files one_file_builder (DownloadManager "sample") false world_ten).1
  = builtins_open world_ten.
Proof.
  apply (X12_open_is_restored_on_return one_file_builder (DownloadManager "sample") false
           world_ten _ ["real/train.txt"]).
  reflexivity.
Defined.

(** X13: whenever [get_files] raises, in mock or in real mode, it leaves
    [builtins.open] bound to the [monkey_patch_open] of the call, which
    holds the list that the call has just allocated. *)
Theorem X13_open_stays_patched_on_error (b : builder) (dl : dl_manager) (mock : bool)
    (w w' : world) (e : exn) :
  get_files b dl mock w = (w', Err e) →
  builtins_open w' = monkey_patch_open (length (lists w)) mock.
Proof. apply get_files_leaves_patch_on_error. Qed.

Lemma X13_witness :
  builtins_open
    (get_files two_split_builder (DownloadManager "sample") false world_ten).1
  = monkey_patch_open 0 false.
Proof.
  apply (X13_open_stays_patched_on_error two_split_builder (DownloadManager "sample")
           false world_ten _ (FileNotFoundError "real/labels.txt")).
  reflexivity.
Defined.

(** Once [builtins._open] is a real-mode [monkey_patch_open], a call of that
    patch calls itself until the recursion limit. *)
Lemma call_open_reentrant depth k path m w :
  builtins__open w = Some (monkey_patch_open k false) →
  (call_open depth (monkey_patch_open k false) path m w).2 = Err RecursionError.
Proof.
  revert w. induction depth as [|depth IH]; intros w Hold; [done|].
  rewrite call_open_patch, Hold. by apply IH.
Qed.

Lemma py_open_reentrant k k' path m w :
  builtins_open w = monkey_patch_open k' false →
  builtins__open w = Some (monkey_patch_open k false) →
  (py_open path m w).2 = Err RecursionError.
Proof.
  intros Hopen Hold. unfold py_open.
  rewrite Hopen, recursion_limit_two, call_open_patch, Hold.
  by apply call_open_reentrant.
Qed.

Lemma run_script_no_opens {A} (s : script A) w :
  script_opens s = [] → run_script s w = (w, script_end s).
Proof. induction s; simpl; try done. Qed.

Lemma run_script_reentrant {A} (s : script A) k k' w :
  builtins_open w = monkey_patch_open k' false →
  builtins__open w = Some (monkey_patch_open k false) →
  script_opens s ≠ [] →
  (run_script s w).2 = Err RecursionError.
Proof.
  intros Hopen Hold. induction s as [a|e|path m s IH|s IH]; simpl; try done.
  intros _. unfold bind.
  pose proof (py_open_reentrant k k' path m w Hopen Hold) as Hpy.
  destruct (py_open path m w) as [w1 [h|e]]; simpl in Hpy; [done|].
  by injection Hpy as ->.
Qed.

Lemma drive_splits_reentrant b splits k k' w :
  builtins_open w = monkey_patch_open k' false →
  builtins__open w = Some (monkey_patch_open k false) →
  drive_opens b splits ≠ [] →
  (drive_splits b splits w).2 = Err RecursionError.
Proof.
  intros Hopen Hold. induction splits as [|split splits IH]; [done|].
  cbn [drive_opens drive_splits]. unfold bind.
  destruct (script_opens (_generate_examples b (gen_kwargs split))) as [|o os] eqn:Ho.
  - rewrite (run_script_no_opens _ _ Ho). simpl.
    destruct (script_end _) as [[]|e]; [|done]. apply IH.
  - intros _.
    pose proof (run_script_reentrant (_generate_examples b (gen_kwargs split)) k k' w
                  Hopen Hold) as Hrun.
    rewrite Ho in Hrun.
    specialize (Hrun ltac:(done)).
    destruct (run_script _ w) as [w1 [[]|e]]; simpl in Hrun; [done|].
    by injection Hrun as ->.
Qed.

(** X14: a real run that starts while [builtins.open] is still the real-mode
    [monkey_patch_open] of an earlier run (one that raised) cannot open
    anything: the first [open] of the builder makes the old patch call itself
    through [builtins._open] until [RecursionError]. *)
Theorem X14_real_run_after_a_failed_one_recurses (b : builder) (dl : dl_manager)
    (k : nat) (w : world) :
  builtins_open w = monkey_patch_open k false →
  builder_opens b dl ≠ [] →
  (get_files b dl false w).2 = Err RecursionError.
Proof.
  intros Hopen Hasks. unfold get_files.
  unfold bind at 1. cbn beta iota.
  unfold bind at 1, modify at 1. cbn beta iota.
  unfold bind at 1, modify at 1. cbn beta iota.
  unfold bind at 1.
  set (w0 := set_builtins_open _ _).
  assert (builtins_open w0 = monkey_patch_open (length (lists w)) false) as Hopen0
    by done.
  assert (builtins__open w0 = Some (monkey_patch_open k false)) as Hold0.
  { subst w0. simpl. by rewrite Hopen. }
  unfold builder_opens in Hasks.
  destruct (script_opens (_split_generators b dl)) as [|o os] eqn:Ho.
  - rewrite (run_script_no_opens _ _ Ho).
    destruct (script_end (_split_generators b dl)) as [splits|e]; [|done].
    simpl in Hasks. unfold bind at 1.
    pose proof (drive_splits_reentrant b splits k _ w0 Hopen0 Hold0 Hasks) as Hdrive.
    destruct (drive_splits b splits w0) as [w1 [[]|e]]; simpl in Hdrive; [done|].
    by injection Hdrive as ->.
  - pose proof (run_script_reentrant (_split_generators b dl) k _ w0 Hopen0 Hold0)
      as Hrun.
    rewrite Ho in Hrun. specialize (Hrun ltac:(done)).
    destruct (run_script _ w0) as [w1 [splits|e]]; simpl in Hrun; [done|].
    by injection Hrun as ->.
Qed.

(** A real run fails on a missing file; the next real run fails with
    [RecursionError] although its file is there. *)
Lemma X14_witness :
  (get_files one_file_builder (DownloadManager "sample") false
     (get_files two_split_builder (DownloadManager "sample") false world_ten).1).2
  = Err RecursionError.
Proof.
  apply (X14_real_run_after_a_failed_one_recurses one_file_builder
           (DownloadManager "sample") 0).
  - reflexivity.
  - discriminate.
Defined.

(** A builder method that returned has ended as it does when each [open]
    succeeds. *)
Lemma run_script_Ok_end {A} (s : script A) w w' a :
  run_script s w = (w', Ok a) → script_end s = Ok a.
Proof.
  revert w. induction s as [x|e|path m s IH|s IH]; intros w; simpl.
  - by intros [= _ ->].
  - done.
  - unfold bind. destruct (py_open path m w) as [w1 [h|e]]; [apply IH|done].
  - apply IH.
Qed.

(** An [open] never touches the directories or the output, and an [open]
    for reading never touches the files. *)
Lemma call_open_frame depth fn path m w w' r :
  call_open depth fn path m w = (w', r) →
  dirs w' = dirs w ∧ stdout w' = stdout w ∧ (m = mode_r → fs w' = fs w).
Proof.
  revert fn w. induction depth as [|depth IH]; intros fn w.
  - simpl. by intros [= <- _].
  - destruct fn as [|k mock].
    + rewrite call_open_io. unfold io_open_impl. destruct m.
      * destruct (fs w !! path) as [[]|]; by intros [= <- _].
      * by intros [= <- _].
    + rewrite call_open_patch. destruct mock; [by intros [= <- _]|].
      destruct (builtins__open w) as [fn|]; [|by intros [= <- _]].
      intros H. by apply IH in H.
Qed.

Lemma run_script_frame {A} (s : script A) w w' r :
  run_script s w = (w', r) →
  dirs w' = dirs w ∧ stdout w' = stdout w
  ∧ (Forall (λ pm, pm.2 = mode_r) (script_opens s) → fs w' = fs w).
Proof.
  revert w. induction s as [x|e|path m s IH|s IH]; intros w; simpl.
  - by intros [= <- _].
  - by intros [= <- _].
  - unfold bind, py_open.
    destruct (call_open _ _ path m w) as [w1 [h|e]] eqn:E;
      apply call_open_frame in E as (E1 & E2 & E3).
    + intros (H1 & H2 & H3)%IH. repeat split; [congruence..|].
      intros Hall. inversion Hall as [|? ? Hm Hrest]; subst. simpl in Hm.
      rewrite (H3 Hrest). by apply E3.
    + intros [= <- _]. repeat split; [done..|].
      intros Hall. inversion Hall as [|? ? Hm Hrest]; subst. by apply E3.
  - apply IH.
Qed.

Lemma drive_splits_frame b splits w w' r :
  drive_splits b splits w = (w', r) →
  dirs w' = dirs w ∧ stdout w' = stdout w
  ∧ (Forall (λ pm, pm.2 = mode_r) (drive_opens b splits) → fs w' = fs w).
Proof.
  revert w. induction splits as [|split splits IH]; intros w.
  - simpl. by intros [= <- _].
  - cbn [drive_splits drive_opens]. unfold bind.
    destruct (run_script _ w) as [w1 [[]|e]] eqn:E.
    + pose proof (run_script_Ok_end _ _ _ _ E) as Hend.
      apply run_script_frame in E as (E1 & E2 & E3).
      intros (H1 & H2 & H3)%IH. rewrite Hend. repeat split; [congruence..|].
      intros [Ha Hb]%Forall_app. rewrite (H3 Hb). by apply E3.
    + apply run_script_frame in E as (E1 & E2 & E3).
      intros [= <- _]. repeat split; [done..|].
      intros [Ha _]%Forall_app. by apply E3.
Qed.

(** [get_files] never touches the directories or the output, and it leaves
    the files as they are when the builder opens files for reading only. *)
Lemma get_files_frame b dl mock w w' r :
  get_files b dl mock w = (w', r) →
  dirs w' = dirs w ∧ stdout w' = stdout w
  ∧ (Forall (λ pm, pm.2 = mode_r) (builder_opens b dl) → fs w' = fs w).
Proof.
  unfold get_files, bind, modify, builder_opens. simpl.
  destruct (run_script _ _) as [w1 [splits|e]] eqn:E1.
  - pose proof (run_script_Ok_end _ _ _ _ E1) as Hend. rewrite Hend.
    apply run_script_frame in E1 as (A1 & A2 & A3). simpl in A1, A2, A3.
    destruct (drive_splits _ _ _) as [w2 [[]|e]] eqn:E2;
      apply drive_splits_frame in E2 as (B1 & B2 & B3).
    + unfold get_builtins__open. destruct (builtins__open w2).
      * intros [= <- _]. simpl. repeat split; [congruence..|].
        intros [Ha Hb]%Forall_app. rewrite (B3 Hb). by apply A3.
      * intros [= <- _]. repeat split; [congruence..|].
        intros [Ha Hb]%Forall_app. rewrite (B3 Hb). by apply A3.
    + intros [= <- _]. repeat split; [congruence..|].
      intros [Ha Hb]%Forall_app. rewrite (B3 Hb). by apply A3.
  - apply run_script_frame in E1 as (A1 & A2 & A3). simpl in A1, A2, A3.
    intros [= <- _]. repeat split; [done..|].
    intros [Ha _]%Forall_app. by apply A3.
Qed.

End GetFilesMore.

(** ** [slurp], on every file and every count *)

Section SlurpMore.
Import Py DummyData DummyDataRuns.

Lemma keep_lines_sublist f i total nf nl :
  keep_lines f i total nf nl [] `sublist_of` f.
Proof.
  revert i. induction f as [|x f IH]; intros i; [constructor|].
  rewrite keep_lines_cons. destruct (keeps i total nf nl); simpl.
  - by apply sublist_skip.
  - by apply sublist_cons.
Qed.

(** X15: whatever the two counts are (negative ones too), [slurp] on a
    readable file returns lines of the file in their order in the file,
    each position at most once: it never reorders, repeats or invents a
    line, and it leaves the state as it was. *)
Theorem X15_slurp_returns_a_subsequence (w : world) (filename : string)
    (content : list string) (n_first n_last : Z) :
  builtins_open w = io_open →
  fs w !! filename = Some (text_file content) →
  ∃ lines,
    slurp filename n_first n_last w = (w, Ok lines)
    ∧ lines `sublist_of` content
    ∧ length lines ≤ length content.
Proof.
  intros Hopen Hfs. eexists. split; [by apply slurp_ok|].
  split; [apply keep_lines_sublist|].
  apply sublist_length, keep_lines_sublist.
Qed.

Lemma X15_witness :
  ∃ lines,
    slurp "real/train.txt" 3 (-2) world_ten = (world_ten, Ok lines)
    ∧ lines `sublist_of` ten_lines.
Proof.
  destruct (X15_slurp_returns_a_subsequence world_ten "real/train.txt" ten_lines 3 (-2))
    as (lines & Hslurp & Hsub & _); [reflexivity..|].
  by exists lines.
Defined.

(** X16: when the head and the tail meet or overlap, that is when the file
    has at most [n_first + 1 + n_last] lines, [slurp] returns the whole file,
    each line once. *)
Theorem X16_slurp_keeps_a_short_file_whole (w : world) (filename : string)
    (content : list string) (n_first n_last : Z) :
  builtins_open w = io_open →
  fs w !! filename = Some (text_file content) →
  (0 ≤ n_first)%Z → (0 ≤ n_last)%Z →
  (Z.of_nat (length content) ≤ n_first + 1 + n_last)%Z →
  slurp filename n_first n_last w = (w, Ok content).
Proof.
  intros Hopen Hfs Hnf Hnl Hlen.
  rewrite (slurp_ok _ _ _ n_first n_last Hopen Hfs), keep_lines_counts by lia.
  do 2 f_equal.
  replace (length content - (Z.to_nat n_first + 1) - Z.to_nat n_last) with 0 by lia.
  by rewrite drop_0, take_drop.
Qed.

Lemma X16_witness :
  slurp "real/train.txt" 6 5 world_ten = (world_ten, Ok ten_lines).
Proof.
  apply (X16_slurp_keeps_a_short_file_whole world_ten "real/train.txt" ten_lines 6 5);
    [reflexivity|reflexivity|lia|lia|].
  simpl. lia.
Defined.

Lemma keep_lines_tail_only f i total nf nl :
  (nf < i)%Z → total = (i + Z.of_nat (length f))%Z →
  keep_lines f i total nf nl [] = drop (length f - Z.to_nat nl) f.
Proof.
  revert i. induction f as [|x f IH]; intros i Hi Htotal; [done|].
  rewrite keep_lines_cons, (IH (i + 1)%Z) by (simpl in Htotal; lia).
  unfold keeps. simpl length in *.
  destruct (Z.leb_spec i nf) as [?|_]; [lia|]. simpl.
  destruct (Z.geb_spec i (total - nl)) as [Hge|Hlt].
  - replace (S (length f) - Z.to_nat nl) with 0 by lia.
    replace (length f - Z.to_nat nl) with 0 by lia. done.
  - replace (S (length f) - Z.to_nat nl) with (S (length f - Z.to_nat nl)) by lia.
    done.
Qed.

(** X17: a negative [n_first], which the command line accepts, switches the
    head off: [slurp] returns exactly the last [n_last] lines (all lines when
    the file is shorter), and nothing at all when [n_last] is zero or
    negative. *)
Theorem X17_negative_head_keeps_the_tail_only (w : world) (filename : string)
    (content : list string) (n_first n_last : Z) :
  builtins_open w = io_open →
  fs w !! filename = Some (text_file content) →
  (n_first < 0)%Z →
  slurp filename n_first n_last w
  = (w, Ok (drop (length content - Z.to_nat n_last) content))
  ∧ ((n_last ≤ 0)%Z → slurp filename n_first n_last w = (w, Ok [])).
Proof.
  intros Hopen Hfs Hnf.
  rewrite (slurp_ok _ _ _ n_first n_last Hopen Hfs), keep_lines_tail_only by lia.
  split; [done|]. intros Hnl.
  replace (Z.to_nat n_last) with 0 by lia.
  by rewrite Nat.sub_0_r, drop_all.
Qed.

Lemma X17_witness :
  slurp "real/train.txt" (-1) 2 world_ten
  = (world_ten, Ok ((λ s, s +:+ String "010" "") <$> ["eight"; "nine"])).
Proof.
  destruct (X17_negative_head_keeps_the_tail_only world_ten "real/train.txt" ten_lines
              (-1) 2) as [Htail _]; [reflexivity|reflexivity|lia|].
  rewrite Htail. reflexivity.
Defined.



(** X19: [slurp] opens its file through the name [open] of [builtins], two
    times. While a mock [monkey_patch_open] is in place (as after a mock run
    that raised), it therefore reads two empty temporary files: it returns no
    line, also for a file that has lines, and the path is recorded twice in
    the list of the patch. *)
Theorem X19_slurp_under_a_mock_patch (w : world) (k : nat) (filename : string)
    (n_first n_last : Z) :
  builtins_open w = monkey_patch_open k true →
  slurp filename n_first n_last w = (record_opens k [filename; filename] w, Ok []).
Proof.
  intros Hopen. unfold slurp, bind.
  rewrite (py_open_patched k true filename mode_r w Hopen) by done.
  cbn [blocked read_lines].
  rewrite (py_open_patched k true filename mode_r (record_opens k [filename] w) Hopen)
    by done.
  cbn [blocked read_lines]. by rewrite record_opens_app.
Qed.

Lemma X19_witness :
  (slurp "real/train.txt" 2 1
     (get_files raising_builder (MockDownloadManager "sample" None "1.0.0") true
        world_ten).1).2 = Ok [].
Proof.
  rewrite (X19_slurp_under_a_mock_patch _ 0); reflexivity.
Defined.

End SlurpMore.

(** ** The command: its construction and the trimming loop *)

Section CommandMore.
Import Py DummyData DummyDataRuns.

(** X20: for a path with a slash, the flags decide: [auto_zip] with both
    counts zero is refused with the first assertion message, and a count
    other than zero without [auto_zip] is refused with the second one. The
    test is on zero only, so that negative counts pass with [auto_zip]. *)
Theorem X20_inconsistent_flags_are_refused (path : string) (requires_manual : bool)
    (n_first n_last : Z) :
  contains path "/" = true →
  __init__ path requires_manual true 0 0
  = Err (AssertionError
           "When using `auto-zip` you need to set at least `--n-first` or `--n-last`")
  ∧ (n_first ≠ 0%Z ∨ n_last ≠ 0%Z →
     __init__ path requires_manual false n_first n_last
     = Err (AssertionError
              "When using `--n-first` or `--n-last` you need to set `--auto-zip`"))
  ∧ (n_first ≠ 0%Z ∨ n_last ≠ 0%Z →
     ∃ cmd, __init__ path requires_manual true n_first n_last = Ok cmd
            ∧ _n_first cmd = n_first ∧ _n_last cmd = n_last).
Proof.
  intros (cs & name & last & Hsplit)%split_two_pieces.
  unfold __init__. rewrite Hsplit, getitem_second_to_last. simpl.
  split; [done|]. split.
  - intros Hflags.
    destruct (Z.eqb_spec n_first 0), (Z.eqb_spec n_last 0); simpl; try done. lia.
  - intros Hflags.
    destruct (Z.eqb_spec n_first 0), (Z.eqb_spec n_last 0); simpl; eauto. lia.
Qed.

(** [--auto-zip] alone, and [--n-first 3] alone, are refused; [--auto-zip]
    with [--n-first -1] is accepted. *)
Lemma X20_witness :
  __init__ "datasets/sample/" false true 0 0
  = Err (AssertionError
           "When using `auto-zip` you need to set at least `--n-first` or `--n-last`")
  ∧ __init__ "datasets/sample/" false false 3 0
    = Err (AssertionError
             "When using `--n-first` or `--n-last` you need to set `--auto-zip`")
  ∧ ∃ cmd, __init__ "datasets/sample/" false true (-1) 0 = Ok cmd.
Proof.
  destruct (X20_inconsistent_flags_are_refused "datasets/sample/" false 3 0)
    as (Hauto & Hcounts & _); [reflexivity|].
  destruct (X20_inconsistent_flags_are_refused "datasets/sample/" false (-1) 0)
    as (_ & _ & Hnegative); [reflexivity|].
  split; [exact Hauto|]. split; [apply Hcounts; by left|].
  destruct Hnegative as (cmd & Hcmd & _); [by left|]. by exists cmd.
Defined.

(** X21: among the real files, the one that stands for an expected file is
    the first, in the order in which the real run opened them, with the same
    base name; later files with that base name are never used, and two
    expected files with the same base name get the same real file. *)
Theorem X21_the_first_real_file_with_the_base_name (pre post : list string)
    (real_file file_to_create : string) :
  Forall (λ r, basename r ≠ basename file_to_create) pre →
  basename real_file = basename file_to_create →
  find_real_file (pre ++ real_file :: post) file_to_create = Ok real_file
  ∧ ∀ other, basename other = basename file_to_create →
             find_real_file (pre ++ real_file :: post) other = Ok real_file.
Proof.
  intros Hpre Hfile.
  assert (∀ f, basename f = basename file_to_create →
               find_real_file (pre ++ real_file :: post) f = Ok real_file) as Hall.
  { intros f Hf. unfold find_real_file.
    rewrite filter_app, filter_cons_True by congruence.
    rewrite (filter_none (λ r, basename r = basename f)); [by rewrite getitem_0|].
    eapply Forall_impl; [exact Hpre|]. simpl. congruence. }
  split; [by apply Hall|exact Hall].
Qed.

(** Two downloads hold a [train.txt]: both expected files are cut from the
    first one. *)
Lemma X21_witness :
  find_real_file ["cache/readme.md"; "cache/en/train.txt"; "cache/de/train.txt"]
    "en/train.txt" = Ok "cache/en/train.txt"
  ∧ find_real_file ["cache/readme.md"; "cache/en/train.txt"; "cache/de/train.txt"]
      "de/train.txt" = Ok "cache/en/train.txt".
Proof.
  destruct (X21_the_first_real_file_with_the_base_name ["cache/readme.md"]
              ["cache/de/train.txt"] "cache/en/train.txt" "en/train.txt")
    as [Hfirst Hother].
  - repeat constructor. discriminate.
  - reflexivity.
  - split; [exact Hfirst|]. apply Hother. reflexivity.
Defined.



(** X27: [auto_zip] starts with the real run and has no handler around it.
    However the real run fails, on a file that is not there or with an error
    of the builder, [auto_zip] ends with that error before its first loop:
    nothing is trimmed and no archive is made; no directory is made and
    nothing is printed; [builtins.open] is left patched; and when the builder
    opens files for reading only, the files are as they were. *)
Theorem X27_auto_zip_writes_nothing_when_the_real_run_fails (self : DummyDataCommand)
    (config : option builder_config) (version : string) (b : builder)
    (folder : string) (files_to_create : list string) (w w' : world) (e : exn) :
  get_real_files self b w = (w', Err e) →
  auto_zip self config version b folder files_to_create w = (w', Err e)
  ∧ builtins_open w' = monkey_patch_open (length (lists w)) false
  ∧ dirs w' = dirs w
  ∧ stdout w' = stdout w
  ∧ (Forall (λ pm, pm.2 = mode_r)
       (builder_opens b (DownloadManager (_dataset_name self))) →
     fs w' = fs w).
Proof.
  intros Hreal. split.
  - unfold auto_zip. unfold bind at 1. by rewrite Hreal.
  - unfold get_real_files in Hreal. split.
    + by apply get_files_leaves_patch_on_error in Hreal.
    + by apply get_files_frame in Hreal.
Qed.

(** The labels file is not there: the real run fails at it, and so does
    [auto_zip], with every file as it was. *)
Lemma X27_witness :
  (auto_zip (sample_command true 2 1) None "1.0.0" two_split_builder
     "datasets/sample/dummy/1.0.0" ["train.txt"] world_ten).2
  = Err (FileNotFoundError "real/labels.txt")
  ∧ fs (auto_zip (sample_command true 2 1) None "1.0.0" two_split_builder
          "datasets/sample/dummy/1.0.0" ["train.txt"] world_ten).1
    = fs world_ten.
Proof.
  destruct (X27_auto_zip_writes_nothing_when_the_real_run_fails (sample_command true 2 1)
              None "1.0.0" two_split_builder "datasets/sample/dummy/1.0.0" ["train.txt"]
              world_ten
              (get_real_files (sample_command true 2 1) two_split_builder world_ten).1
              (FileNotFoundError "real/labels.txt")) as (Herr & _ & _ & _ & Hfs).
  - reflexivity.
  - rewrite Herr. split; [reflexivity|]. apply Hfs. repeat constructor.
Defined.

End CommandMore.

(** ** The discovery of the expected files, and the loop of [run] *)

Section GetExpectedFilesMore.
Import Py DummyData DummyDataRuns.

Lemma collect_splits_spec dummy_file_name self config folder splits names guide :
  collect_splits dummy_file_name self config folder splits names guide
  = (names ++ (name <$> splits),
     match splits with
     | [] => guide
     | _ :: _ =>
         Some [g_header;
               g_go_into_folder (config_name <$> config) (_dataset_name self) folder;
               g_glob_expected dummy_file_name]
     end).
Proof.
  revert names guide. induction splits as [|split splits IH]; intros names guide; simpl.
  - by rewrite app_nil_r.
  - rewrite IH, <- app_assoc. by destruct splits.
Qed.

(** X23: a builder whose split generation opens no file and returns no
    split. With the instructions on, [get_expected_files] raises
    [UnboundLocalError] for the guidance text, which only the loop over the
    splits binds; with the instructions off (the auto-zip mode) it returns
    the folder and no expected file. *)
Theorem X23_no_split_no_instructions
    (dummy_data_folder_of : option builder_config → string → string)
    (dummy_file_name : string) (self : DummyDataCommand)
    (config : option builder_config) (version : string) (b : builder) (w w1 : world) :
  makedirs (path_join (_path_to_dataset self) (dummy_data_folder_of config version)) w
  = (w1, Ok tt) →
  script_opens (_split_generators b (MockDownloadManager (_dataset_name self) config version))
  = [] →
  script_end (_split_generators b (MockDownloadManager (_dataset_name self) config version))
  = Ok [] →
  (get_expected_files dummy_data_folder_of dummy_file_name self config version b true w).2
  = Err (UnboundLocalError "dummy_data_guidance_print")
  ∧ (get_expected_files dummy_data_folder_of dummy_file_name self config version b
       false w).2
    = Ok (path_join (_path_to_dataset self) (dummy_data_folder_of config version), []).
Proof.
  intros Hdirs Hopens Hend.
  pose proof (run_script_no_opens _ w1 Hopens) as Hprobe. rewrite Hend in Hprobe.
  assert (∀ print_instructions,
            get_expected_files dummy_data_folder_of dummy_file_name self config version
              b print_instructions w
            = (let* _ :=
                 if print_instructions
                 then raise (UnboundLocalError "dummy_data_guidance_print")
                 else ret tt in
               ret (path_join (_path_to_dataset self)
                      (dummy_data_folder_of config version), []))
                (get_files b (MockDownloadManager (_dataset_name self) config version)
                   true w1).1) as Hrun.
  { intros print_instructions. unfold get_expected_files.
    unfold bind at 1. rewrite Hdirs.
    unfold bind at 1, probe_split_generators. rewrite Hprobe.
    unfold bind at 1, local at 1, ret at 1. cbn [collect_splits].
    unfold bind at 1. rewrite !get_files_patched by done.
    unfold recorded, builder_opens, builder_end. cbn [blocked].
    rewrite Hend, Hopens.
    cbn [rbind drive_end drive_opens]. cbn [fst].
    by destruct print_instructions. }
  split; by rewrite Hrun.
Qed.

Lemma X23_witness :
  (get_expected_files (λ _ version, "dummy/" +:+ version) "dummy_data"
     (sample_command false 0 0) None "1.0.0" no_split_builder true world_ten).2
  = Err (UnboundLocalError "dummy_data_guidance_print").
Proof.
  destruct (X23_no_split_no_instructions (λ _ version, "dummy/" +:+ version) "dummy_data"
              (sample_command false 0 0) None "1.0.0" no_split_builder world_ten
              (makedirs "datasets/sample/dummy/1.0.0" world_ten).1) as [Hon _];
    [reflexivity..|].
  exact Hon.
Defined.

(** X24: only [FileNotFoundError] is caught around the probe of
    [_split_generators]: any other exception of the builder leaves
    [get_expected_files] as it is, with nothing printed. *)
Theorem X24_other_probe_errors_go_through
    (dummy_data_folder_of : option builder_config → string → string)
    (dummy_file_name : string) (self : DummyDataCommand)
    (config : option builder_config) (version : string) (b : builder)
    (print_instructions : bool) (w w1 w2 : world) (e : exn) :
  makedirs (path_join (_path_to_dataset self) (dummy_data_folder_of config version)) w
  = (w1, Ok tt) →
  run_script (_split_generators b (MockDownloadManager (_dataset_name self) config version))
    w1 = (w2, Err e) →
  (∀ filename, e ≠ FileNotFoundError filename) →
  get_expected_files dummy_data_folder_of dummy_file_name self config version b
    print_instructions w = (w2, Err e)
  ∧ stdout w2 = stdout w.
Proof.
  intros Hdirs Hprobe He. split.
  - unfold get_expected_files. unfold bind at 1. rewrite Hdirs.
    unfold bind at 1, probe_split_generators. rewrite Hprobe.
    destruct e; try done. by destruct (He filename).
  - apply run_script_frame in Hprobe as (_ & -> & _).
    unfold makedirs in Hdirs. destruct (bool_decide _); [done|].
    by injection Hdirs as <-.
Qed.

Lemma X24_witness :
  (get_expected_files (λ _ version, "dummy/" +:+ version) "dummy_data"
     (sample_command false 0 0) None "1.0.0"
     {| _split_generators := λ _, s_raise (Exception "no such configuration");
        _generate_examples := λ _, s_return tt |} true world_ten).2
  = Err (Exception "no such configuration").
Proof.
  destruct (X24_other_probe_errors_go_through (λ _ version, "dummy/" +:+ version)
              "dummy_data" (sample_command false 0 0) None "1.0.0"
              {| _split_generators := λ _, s_raise (Exception "no such configuration");
                 _generate_examples := λ _, s_return tt |} true world_ten
              (makedirs "datasets/sample/dummy/1.0.0" world_ten).1
              (makedirs "datasets/sample/dummy/1.0.0" world_ten).1
              (Exception "no such configuration")) as [Hrun _];
    [reflexivity|reflexivity|discriminate|].
  by rewrite Hrun.
Defined.

(** X25: a builder whose split generation opens no file and returns at
    least one split, and whose example generators call [open] with a path
    and at most a mode and end without an error of their own in the mock
    run. Then [get_expected_files] returns the dummy-data folder with the
    paths that the example generators asked to open, split after split and
    in the order of the calls; it prints one message, the instructions, when
    they are asked for and nothing otherwise; and it leaves the files and
    [builtins.open] as they were after [os.makedirs]. *)
Theorem X25_expected_files_are_those_of_the_mock_run
    (dummy_data_folder_of : option builder_config → string → string)
    (dummy_file_name : string) (self : DummyDataCommand)
    (config : option builder_config) (version : string) (b : builder)
    (print_instructions : bool) (w w1 : world) (splits : list split_generator) :
  makedirs (path_join (_path_to_dataset self) (dummy_data_folder_of config version)) w
  = (w1, Ok tt) →
  script_opens (_split_generators b (MockDownloadManager (_dataset_name self) config version))
  = [] →
  script_end (_split_generators b (MockDownloadManager (_dataset_name self) config version))
  = Ok splits →
  splits ≠ [] →
  drive_end b splits = Ok tt →
  get_expected_files dummy_data_folder_of dummy_file_name self config version b
    print_instructions w
  = (World (fs w1) (dirs w1) (builtins_open w1) (Some (builtins_open w1))
       (lists w1 ++ [(drive_opens b splits).*1])
       (stdout w1
        ++ if print_instructions
           then [msg_dummy_data_instructions
                   ([g_header;
                     g_go_into_folder (config_name <$> config) (_dataset_name self)
                       (path_join (_path_to_dataset self)
                          (dummy_data_folder_of config version));
                     g_glob_expected dummy_file_name]
                    ++ instructions dummy_file_name
                         (path_join (_path_to_dataset self)
                            (dummy_data_folder_of config version))
                         (join ", " (name <$> splits))
                         (drive_opens b splits).*1)]
           else []),
     Ok (path_join (_path_to_dataset self) (dummy_data_folder_of config version),
         (drive_opens b splits).*1)).
Proof.
  intros Hdirs Hopens Hend Hsplits Hdrive.
  pose proof (run_script_no_opens _ w1 Hopens) as Hprobe. rewrite Hend in Hprobe.
  assert (builder_opens b (MockDownloadManager (_dataset_name self) config version)
          = drive_opens b splits) as Hasked.
  { unfold builder_opens. by rewrite Hopens, Hend. }
  unfold get_expected_files.
  unfold bind at 1. rewrite Hdirs.
  unfold bind at 1, probe_split_generators. rewrite Hprobe.
  unfold bind at 1, local at 1, ret at 1. rewrite collect_splits_spec.
  destruct splits as [|split splits]; [done|]. cbn [app].
  unfold bind at 1. rewrite get_files_patched by done.
  assert (recorded true (fs w1) b (MockDownloadManager (_dataset_name self) config version)
          = Ok (drive_opens b (split :: splits)).*1) as ->.
  { unfold recorded, builder_end. cbn [blocked].
    rewrite Hasked, Hend. cbn [rbind]. by rewrite Hdrive. }
  cbn [opened]. rewrite Hasked.
  destruct print_instructions.
  - unfold bind, local, ret, modify, print. by simpl.
  - unfold bind, ret. simpl. by rewrite app_nil_r.
Qed.

Lemma X25_witness :
  (get_expected_files (λ _ version, "dummy/" +:+ version) "dummy_data"
     (sample_command true 2 1) None "1.0.0" two_split_builder false world_ten).2
  = Ok ("datasets/sample/dummy/1.0.0",
        ["real/train.txt"; "real/labels.txt"; "real/train.txt"; "real/labels.txt"]).
Proof.
  rewrite (X25_expected_files_are_those_of_the_mock_run
             (λ _ version, "dummy/" +:+ version) "dummy_data" (sample_command true 2 1)
             None "1.0.0" two_split_builder false world_ten
             (makedirs "datasets/sample/dummy/1.0.0" world_ten).1
             [{| name := "train"; gen_kwargs := [] |};
              {| name := "test"; gen_kwargs := [] |}]);
    [reflexivity|reflexivity|reflexivity|reflexivity|discriminate|reflexivity].
Defined.

(** The discovery leaves the files as they are when the split generation
    opens files for reading only. *)
Lemma get_expected_files_fs dummy_data_folder_of dummy_file_name self config version b
    print_instructions w :
  Forall (λ pm, pm.2 = mode_r)
    (script_opens
       (_split_generators b (MockDownloadManager (_dataset_name self) config version))) →
  fs (get_expected_files dummy_data_folder_of dummy_file_name self config version b
        print_instructions w).1 = fs w.
Proof.
  intros Hread. unfold get_expected_files.
  unfold bind at 1, makedirs. destruct (bool_decide _); [done|].
  unfold modify at 1. unfold bind at 1, probe_split_generators.
  destruct (run_script _ _) as [w2 r] eqn:Hprobe.
  apply run_script_frame in Hprobe as (_ & _ & Hfs). specialize (Hfs Hread).
  simpl in Hfs. destruct r as [splits|e].
  - unfold bind at 1, local at 1, ret at 1.
    destruct (collect_splits _ _ _ _ _ _ _) as [names guide].
    unfold bind at 1. rewrite get_files_patched by done.
    destruct (recorded true (fs w2) b _) as [files|e]; [|done].
    destruct print_instructions; [|done].
    unfold bind at 1, local. destruct guide; [|done].
    unfold bind, ret, modify, print. by simpl.
  - by destruct e.
Qed.

(** X26: in the instruction mode (without [auto_zip]) the loop of [run]
    writes no file, whatever the configurations are and however the loop
    ends, as long as the split generation of the builders opens files for
    reading only: every file is as it was. *)
Theorem X26_instruction_mode_writes_no_file
    (dummy_data_folder_of : option builder_config → string → string)
    (dummy_file_name : string) (self : DummyDataCommand) (cls : builder_cls)
    (hash : string) (configs : list (option builder_config)) (w : world) :
  _auto_zip self = false →
  Forall (λ config,
            Forall (λ pm, pm.2 = mode_r)
              (script_opens
                 (_split_generators (new_builder cls (config_name <$> config) hash)
                    (MockDownloadManager (_dataset_name self) config
                       (match config with
                        | None => VERSION cls
                        | Some c => config_version c
                        end))))) configs →
  fs (run_configs dummy_data_folder_of dummy_file_name self cls hash configs w).1 = fs w.
Proof.
  intros Hauto Hread. revert w.
  induction Hread as [|config configs Hconfig _ IH]; intros w; [done|].
  cbn [run_configs]. unfold bind at 1, run_config. rewrite Hauto. unfold bind at 1.
  pose proof (get_expected_files_fs dummy_data_folder_of dummy_file_name self config _ _
                (negb false) w Hconfig) as Hfs.
  destruct (get_expected_files _ _ _ _ _ _ _ _) as [w1 [[folder files]|e]];
    simpl in Hfs; [|done].
  unfold ret. by rewrite IH.
Qed.

Lemma X26_witness :
  fs (run_configs (λ _ version, "dummy/" +:+ version) "dummy_data"
        (sample_command false 0 0)
        {| BUILDER_CONFIGS := [{| config_name := "en"; config_version := "1.0.0" |};
                               {| config_name := "de"; config_version := "1.1.0" |}];
           VERSION := "0.0.0";
           new_builder := λ _ _, two_split_builder |}
        "hash"
        [Some {| config_name := "en"; config_version := "1.0.0" |};
         Some {| config_name := "de"; config_version := "1.1.0" |}]
        world_ten).1
  = fs world_ten.
Proof.
  apply X26_instruction_mode_writes_no_file; [reflexivity|].
  repeat constructor.
Defined.

End GetExpectedFilesMore.
